(** * rs-hack MCP server: the subprocess bridge and the tool functions

    A shallow embedding of [mcp-example/server.py].  The server is glue
    code: every tool builds an argument vector, hands it to the bridge
    [run_rs_hack], and shapes the bridge's result into a text response.

    Conventions of the embedding.
    - A Python [str] is a [string]; each character stands for a code point
      below 256.
    - The child process, the JSON decoder and the JSON printer belong to
      Python's runtime, not to this repository: they are variables of the
      section [Server], so every theorem holds for every behaviour of the
      external binary and of the codec.
    - A parameter with a default ([name: str | None = None],
      [apply: bool = False]) is a plain argument of the embedded function;
      the defaults of the signatures are applied by [call], which stands for
      the registry invoking a tool on a request. *)

From Stdlib Require Import Strings.String Strings.Ascii Lists.List ZArith.ZArith
  Bool.Bool Numbers.DecimalString micromega.Lia.
Import ListNotations.

Local Open Scope list_scope.
Local Open Scope string_scope.

(* ================================================================== *)
(** * Python strings *)

Module Py.

(** The newline of the f-strings, [chr(10)]. *)
Definition nl : string := String (ascii_of_nat 10) EmptyString.

(** [str.isspace] on one code point below 256: TAB..CR, FS..US, space,
    NEL (0x85) and NBSP (0xA0). *)
Definition isspace (c : ascii) : bool :=
  let n := nat_of_ascii c in
  (((9 <=? n) && (n <=? 13)) || ((28 <=? n) && (n <=? 32))
   || (n =? 133) || (n =? 160))%nat.

Fixpoint lstrip (s : string) : string :=
  match s with
  | EmptyString => EmptyString
  | String c t => if isspace c then lstrip t else s
  end.

Fixpoint rstrip (s : string) : string :=
  match s with
  | EmptyString => EmptyString
  | String c t =>
      match rstrip t with
      | EmptyString => if isspace c then EmptyString else String c EmptyString
      | t' => String c t'
      end
  end.

(** [s.strip()] *)
Definition strip (s : string) : string := rstrip (lstrip s).

(** [s.startswith(p)] *)
Definition startswith (s p : string) : bool := String.prefix p s.

(** [needle in hay] *)
Fixpoint contains (hay needle : string) : bool :=
  String.prefix needle hay
  || match hay with
     | EmptyString => false
     | String _ t => contains t needle
     end.

(** Truth value of a [str]: the empty string is false. *)
Definition truthy (s : string) : bool :=
  match s with EmptyString => false | String _ _ => true end.

(** [a or b] on two strings. *)
Definition or (a b : string) : string := if truthy a then a else b.

(** [p or ""] on a parameter of type [str | None]. *)
Definition or_empty (p : option string) : string :=
  match p with Some s => s | None => EmptyString end.

(** [str(n)] for an [int] (an interpreter's limit on the number of digits
    is not modelled). *)
Definition str_int (n : Z) : string := NilZero.string_of_int (Z.to_int n).

(** [args.extend(xs)] and [args.append(x)], as values. *)
Definition extend (args xs : list string) : list string := (args ++ xs)%list.
Definition append (args : list string) (x : string) : list string :=
  (args ++ [x])%list.

(** Exceptions a tool function can raise on a result dictionary. *)
Inductive exn : Type :=
| KeyError (key : string).

(** A computation that returns or raises. *)
Inductive m (A : Type) : Type :=
| Returns (a : A)
| Raises (e : exn).
Arguments Returns {A} a.
Arguments Raises {A} e.

Definition bind {A B : Type} (c : m A) (k : A -> m B) : m B :=
  match c with
  | Returns a => k a
  | Raises e => Raises e
  end.

End Py.

Notation "x <- c ;; k" := (Py.bind c (fun x => k))
  (at level 61, c at next level, right associativity).


(* ================================================================== *)
(** * Decoding

    What [json.loads(text)] does inside the bridge: it returns the decoded
    value, or raises [json.JSONDecodeError] on a text that is no JSON, or
    raises another [Exception] [e] (the interpreter's recursion limit on a
    deeply nested text, say), of which the bridge reads [str(e)]. *)
Inductive Decode (A : Type) : Type :=
| Decoded (v : A)
| JSONDecodeError
| DecodeRaised (str_e : string).
Arguments Decoded {A} v.
Arguments JSONDecodeError {A}.
Arguments DecodeRaised {A} str_e.

(* ================================================================== *)
(** * A JSON codec

    [json.loads] and [json.dumps] are Python's, not the server's; the
    theorems below are stated for an arbitrary codec.  This module is one
    codec, written after Python's [json] package, with which the theorems
    are instantiated on concrete runs.  Integers decode to [Z]; a number
    with a fraction or an exponent is kept as its lexeme, floating point
    being outside this development.  Decoded strings are lists of code
    points, so that [\uXXXX] escapes are represented.  [loads] is the
    decoder of an interpreter without limits: it never raises anything but
    [JSONDecodeError].  [loads_under] is the decoder under an interpreter's
    limits on the digits of an integer and on the nesting depth. *)

Module Json.

#[local] Set Warnings "-register-all".

Inductive value : Type :=
| Null
| Bool (b : bool)
| Int (n : Z)
| Float (lexeme : string)
| NaN
| Infinity
| NegInfinity
| Str (s : list N)
| Arr (items : list value)
| Obj (members : list (list N * value)).

Definition chars : string -> list ascii := list_ascii_of_string.

Definition quote : ascii := ascii_of_nat 34.
Definition backslash : ascii := ascii_of_nat 92.

(** The decoder's whitespace: space, TAB, LF, CR. *)
Definition is_ws (c : ascii) : bool :=
  let n := nat_of_ascii c in
  ((n =? 32) || (n =? 9) || (n =? 10) || (n =? 13))%nat.

Fixpoint skip_ws (s : list ascii) : list ascii :=
  match s with
  | c :: r => if is_ws c then skip_ws r else s
  | [] => []
  end.

Definition is_digit (c : ascii) : bool :=
  let n := nat_of_ascii c in ((48 <=? n) && (n <=? 57))%nat.

Fixpoint span_digits (s : list ascii) : list ascii * list ascii :=
  match s with
  | c :: r =>
      if is_digit c then let (ds, r') := span_digits r in (c :: ds, r')
      else ([], s)
  | [] => ([], [])
  end.

Definition digits_value (ds : list ascii) : Z :=
  fold_left (fun acc c => (10 * acc + (Z.of_nat (nat_of_ascii c) - 48))%Z) ds 0%Z.

(** [drop_prefix p s] is the rest of [s] after [p], when [s] starts with [p]. *)
Fixpoint drop_prefix (p s : list ascii) : option (list ascii) :=
  match p, s with
  | [], _ => Some s
  | a :: p', b :: s' => if Ascii.eqb a b then drop_prefix p' s' else None
  | _ :: _, [] => None
  end.

(** A number: an optional minus sign, then 0 or a digit string without a
    leading 0, then optionally a dot with digits, then optionally an
    exponent (e or E, a sign, digits).  A dot or an exponent mark that is not
    followed by a digit is left unread. *)
Definition scan_number (s : list ascii) : option (value * list ascii) :=
  let (sign, s1) :=
    match s with
    | c :: r => if Ascii.eqb c "-" then ([c], r) else ([], s)
    | [] => ([], s)
    end in
  let int_part :=
    match s1 with
    | c :: r =>
        if Ascii.eqb c "0" then Some ([c], r)
        else if is_digit c then Some (span_digits s1)
        else None
    | [] => None
    end in
  match int_part with
  | None => None
  | Some (ds, s2) =>
      let (frac, s3) :=
        match s2 with
        | dot :: d :: _ =>
            if Ascii.eqb dot "." && is_digit d
            then let (fs, r) := span_digits (tl s2) in (dot :: fs, r)
            else ([], s2)
        | _ => ([], s2)
        end in
      let (expo, s4) :=
        match s3 with
        | e :: r =>
            if Ascii.eqb e "e" || Ascii.eqb e "E" then
              let (sg, r1) :=
                match r with
                | c :: r' =>
                    if Ascii.eqb c "-" || Ascii.eqb c "+" then ([c], r')
                    else ([], r)
                | [] => ([], r)
                end in
              match span_digits r1 with
              | ([], _) => ([], s3)
              | (es, r2) => ((e :: sg) ++ es, r2)
              end
            else ([], s3)
        | [] => ([], s3)
        end in
      match frac, expo with
      | [], [] =>
          let n := digits_value ds in
          Some (Int (match sign with [] => n | _ => (- n)%Z end), s4)
      | _, _ =>
          Some (Float (string_of_list_ascii (sign ++ ds ++ frac ++ expo)), s4)
      end
  end%list.

Definition hex_digit (c : ascii) : option N :=
  let n := N_of_ascii c in
  if ((48 <=? n) && (n <=? 57))%N then Some (n - 48)%N
  else if ((97 <=? n) && (n <=? 102))%N then Some (n - 87)%N
  else if ((65 <=? n) && (n <=? 70))%N then Some (n - 55)%N
  else None.

Definition hex4 (a b c d : ascii) : option N :=
  match hex_digit a, hex_digit b, hex_digit c, hex_digit d with
  | Some x, Some y, Some z, Some w => Some (((x * 16 + y) * 16 + z) * 16 + w)%N
  | _, _, _, _ => None
  end.

(** The one-character escapes of a JSON string. *)
Definition escape (c : ascii) : option N :=
  let n := nat_of_ascii c in
  if (n =? 34)%nat then Some 34%N          (* quote *)
  else if (n =? 92)%nat then Some 92%N     (* backslash *)
  else if (n =? 47)%nat then Some 47%N     (* slash *)
  else if (n =? 98)%nat then Some 8%N      (* b *)
  else if (n =? 102)%nat then Some 12%N    (* f *)
  else if (n =? 110)%nat then Some 10%N    (* n *)
  else if (n =? 114)%nat then Some 13%N    (* r *)
  else if (n =? 116)%nat then Some 9%N     (* t *)
  else None.

Definition is_high_surrogate (u : N) : bool := ((55296 <=? u) && (u <=? 56319))%N.
Definition is_low_surrogate (u : N) : bool := ((56320 <=? u) && (u <=? 57343))%N.
Definition join_surrogates (hi lo : N) : N :=
  (65536 + ((hi - 55296) * 1024 + (lo - 56320)))%N.

(** The body of a string, after its opening quote (strict mode: no raw
    control character). *)
Fixpoint scanstring (s : list ascii) (acc : list N) : option (list N * list ascii) :=
  match s with
  | [] => None
  | c :: r =>
      if Ascii.eqb c quote then Some (rev acc, r)
      else if Ascii.eqb c backslash then
        match r with
        | [] => None
        | e :: r1 =>
            if Ascii.eqb e "u" then
              match r1 with
              | h1 :: h2 :: h3 :: h4 :: r2 =>
                  match hex4 h1 h2 h3 h4 with
                  | None => None
                  | Some uni =>
                      match r2 with
                      | b :: u :: g1 :: g2 :: g3 :: g4 :: r3 =>
                          if is_high_surrogate uni && Ascii.eqb b backslash
                             && Ascii.eqb u "u"
                          then
                            match hex4 g1 g2 g3 g4 with
                            | None => None
                            | Some uni2 =>
                                if is_low_surrogate uni2
                                then scanstring r3 (join_surrogates uni uni2 :: acc)
                                else scanstring r2 (uni :: acc)
                            end
                          else scanstring r2 (uni :: acc)
                      | _ => scanstring r2 (uni :: acc)
                      end
                  end
              | _ => None
              end
            else
              match escape e with
              | Some n => scanstring r1 (n :: acc)
              | None => None
              end
        end
      else if (nat_of_ascii c <? 32)%nat then None
      else scanstring r (N_of_ascii c :: acc)
  end.

(** [d[k] = v] on a dictionary kept in insertion order. *)
Fixpoint dict_set (k : list N) (v : value) (d : list (list N * value))
  : list (list N * value) :=
  match d with
  | [] => [(k, v)]
  | (k', v') :: d' =>
      if list_eq_dec N.eq_dec k k' then (k', v) :: d'
      else (k', v') :: dict_set k v d'
  end.

(** One JSON value at the head of the input, and the unread rest.  An array
    is read by [scan_items] and an object by [scan_members], both entered
    after the opening bracket and the whitespace behind it.  Every call
    reads at least one character, so a fuel of twice the input's length is
    never used up. *)
Fixpoint scan_once (fuel : nat) (s : list ascii) {struct fuel}
  : option (value * list ascii) :=
  match fuel with
  | O => None
  | S fuel' =>
      match s with
      | [] => None
      | c :: r =>
          if Ascii.eqb c quote then
            match scanstring r [] with
            | Some (k, r') => Some (Str k, r')
            | None => None
            end
          else if Ascii.eqb c "{" then
            match drop_prefix (chars "}") (skip_ws r) with
            | Some r' => Some (Obj [], r')
            | None => scan_members fuel' [] (skip_ws r)
            end
          else if Ascii.eqb c "[" then
            match drop_prefix (chars "]") (skip_ws r) with
            | Some r' => Some (Arr [], r')
            | None => scan_items fuel' [] (skip_ws r)
            end
          else
            match drop_prefix (chars "null") s with
            | Some r' => Some (Null, r')
            | None =>
            match drop_prefix (chars "true") s with
            | Some r' => Some (Bool true, r')
            | None =>
            match drop_prefix (chars "false") s with
            | Some r' => Some (Bool false, r')
            | None =>
            match drop_prefix (chars "NaN") s with
            | Some r' => Some (NaN, r')
            | None =>
            match drop_prefix (chars "Infinity") s with
            | Some r' => Some (Infinity, r')
            | None =>
            match drop_prefix (chars "-Infinity") s with
            | Some r' => Some (NegInfinity, r')
            | None => scan_number s
            end end end end end end
      end
  end

with scan_items (fuel : nat) (acc : list value) (s : list ascii) {struct fuel}
  : option (value * list ascii) :=
  match fuel with
  | O => None
  | S fuel' =>
      match scan_once fuel' s with
      | None => None
      | Some (v, r) =>
          match skip_ws r with
          | c :: r' =>
              if Ascii.eqb c "]" then Some (Arr (rev (v :: acc)), r')
              else if Ascii.eqb c "," then scan_items fuel' (v :: acc) (skip_ws r')
              else None
          | [] => None
          end
      end
  end

with scan_members (fuel : nat) (acc : list (list N * value)) (s : list ascii)
  {struct fuel} : option (value * list ascii) :=
  match fuel with
  | O => None
  | S fuel' =>
      match s with
      | q :: r =>
          if Ascii.eqb q quote then
            match scanstring r [] with
            | None => None
            | Some (k, r1) =>
                match skip_ws r1 with
                | colon :: r2 =>
                    if Ascii.eqb colon ":" then
                      match scan_once fuel' (skip_ws r2) with
                      | None => None
                      | Some (v, r3) =>
                          let acc' := dict_set k v acc in
                          match skip_ws r3 with
                          | c :: r4 =>
                              if Ascii.eqb c "}" then Some (Obj acc', r4)
                              else if Ascii.eqb c ","
                              then scan_members fuel' acc' (skip_ws r4)
                              else None
                          | [] => None
                          end
                      end
                    else None
                | [] => None
                end
            end
          else None
      | [] => None
      end
  end.

(** One value between optional whitespace, and nothing else. *)
Definition decode (s : string) : option value :=
  let cs := chars s in
  match scan_once (2 * List.length cs + 2) (skip_ws cs) with
  | Some (v, r) => match skip_ws r with [] => Some v | _ :: _ => None end
  | None => None
  end.

(** [json.loads(s)] *)
Definition loads (s : string) : Decode value :=
  match decode s with
  | Some v => Decoded v
  | None => JSONDecodeError
  end.

Definition hex_char (d : N) : ascii :=
  ascii_of_N (if (d <? 10)%N then 48 + d else 87 + d)%N.

(** [\uXXXX], four lower-case hexadecimal digits. *)
Definition u_escape (n : N) : string :=
  String backslash (String "u"
    (String (hex_char (n / 4096 mod 16)) (String (hex_char (n / 256 mod 16))
      (String (hex_char (n / 16 mod 16)) (String (hex_char (n mod 16))
        EmptyString))))).

(** One code point of a string under [ensure_ascii]. *)
Definition encode_char (n : N) : string :=
  if (n =? 34)%N then String backslash (String quote EmptyString)
  else if (n =? 92)%N then String backslash (String backslash EmptyString)
  else if (n =? 8)%N then String backslash "b"
  else if (n =? 12)%N then String backslash "f"
  else if (n =? 10)%N then String backslash "n"
  else if (n =? 13)%N then String backslash "r"
  else if (n =? 9)%N then String backslash "t"
  else if ((32 <=? n) && (n <=? 126))%N then String (ascii_of_N n) EmptyString
  else if (n <? 65536)%N then u_escape n
  else
    let m := (n - 65536)%N in
    u_escape (55296 + (m / 1024) mod 1024) ++ u_escape (56320 + m mod 1024).

Definition encode_str (s : list N) : string :=
  String quote (String.concat EmptyString (map encode_char s))
  ++ String quote EmptyString.

Fixpoint spaces (n : nat) : string :=
  match n with O => EmptyString | S k => String " " (spaces k) end.

Definition newline_indent (level : nat) : string := Py.nl ++ spaces (2 * level).

(** [json.dumps(v, indent=2)], the value being at nesting depth [level].
    A float prints as its lexeme. *)
Fixpoint encode (level : nat) (v : value) {struct v} : string :=
  match v with
  | Null => "null"
  | Bool true => "true"
  | Bool false => "false"
  | Int n => Py.str_int n
  | Float lexeme => lexeme
  | NaN => "NaN"
  | Infinity => "Infinity"
  | NegInfinity => "-Infinity"
  | Str s => encode_str s
  | Arr [] => "[]"
  | Arr items =>
      "[" ++ newline_indent (S level)
      ++ String.concat ("," ++ newline_indent (S level))
           (map (encode (S level)) items)
      ++ newline_indent level ++ "]"
  | Obj [] => "{}"
  | Obj members =>
      "{" ++ newline_indent (S level)
      ++ String.concat ("," ++ newline_indent (S level))
           (map (fun kv => encode_str (fst kv) ++ ": " ++ encode (S level) (snd kv))
              members)
      ++ newline_indent level ++ "}"
  end.

Definition dumps (v : value) : string := encode 0 v.

(** ** The decoder of an interpreter with limits

    Python converts an integer literal with [int], which raises
    [ValueError] when the literal has more digits than the interpreter
    allows, and it enters every array and object through a guarded
    recursive call, which raises [RecursionError] when the stack has no
    room left.  Neither is a [JSONDecodeError].  The scan goes from left to
    right, so the first event decides: a syntax error before the long
    literal is a [JSONDecodeError], one behind it is never reached. *)
Record limits : Type := mkLimits {
  max_str_digits : nat;          (* digits [int] converts *)
  max_depth : nat;               (* nested arrays and objects the stack holds *)
  digits_error : nat -> string;  (* [str(e)] of the [ValueError], by digits *)
  depth_error : string           (* [str(e)] of the [RecursionError] *)
}.

(** The digits of the integer part of a number at the head of [s]. *)
Definition int_digits (s : list ascii) : nat :=
  match s with
  | c :: r =>
      List.length (fst (span_digits (if Ascii.eqb c "-" then r else s)))
  | [] => 0
  end.

Fixpoint scan_once_under (l : limits) (fuel depth : nat) (s : list ascii)
  {struct fuel} : Decode (value * list ascii) :=
  match fuel with
  | O => JSONDecodeError
  | S fuel' =>
      match s with
      | [] => JSONDecodeError
      | c :: r =>
          if Ascii.eqb c quote then
            match scanstring r [] with
            | Some (k, r') => Decoded (Str k, r')
            | None => JSONDecodeError
            end
          else if Ascii.eqb c "{" then
            match depth with
            | O => DecodeRaised (depth_error l)
            | S depth' =>
                match drop_prefix (chars "}") (skip_ws r) with
                | Some r' => Decoded (Obj [], r')
                | None => scan_members_under l fuel' depth' [] (skip_ws r)
                end
            end
          else if Ascii.eqb c "[" then
            match depth with
            | O => DecodeRaised (depth_error l)
            | S depth' =>
                match drop_prefix (chars "]") (skip_ws r) with
                | Some r' => Decoded (Arr [], r')
                | None => scan_items_under l fuel' depth' [] (skip_ws r)
                end
            end
          else
            (* a literal or a number: [scan_once] reads it in one step *)
            match scan_once 1 s with
            | Some (Int n, r') =>
                if (max_str_digits l <? int_digits s)%nat
                then DecodeRaised (digits_error l (int_digits s))
                else Decoded (Int n, r')
            | Some (v, r') => Decoded (v, r')
            | None => JSONDecodeError
            end
      end
  end

with scan_items_under (l : limits) (fuel depth : nat) (acc : list value)
  (s : list ascii) {struct fuel} : Decode (value * list ascii) :=
  match fuel with
  | O => JSONDecodeError
  | S fuel' =>
      match scan_once_under l fuel' depth s with
      | Decoded (v, r) =>
          match skip_ws r with
          | c :: r' =>
              if Ascii.eqb c "]" then Decoded (Arr (rev (v :: acc)), r')
              else if Ascii.eqb c ","
              then scan_items_under l fuel' depth (v :: acc) (skip_ws r')
              else JSONDecodeError
          | [] => JSONDecodeError
          end
      | JSONDecodeError => JSONDecodeError
      | DecodeRaised e => DecodeRaised e
      end
  end

with scan_members_under (l : limits) (fuel depth : nat)
  (acc : list (list N * value)) (s : list ascii) {struct fuel}
  : Decode (value * list ascii) :=
  match fuel with
  | O => JSONDecodeError
  | S fuel' =>
      match s with
      | q :: r =>
          if Ascii.eqb q quote then
            match scanstring r [] with
            | None => JSONDecodeError
            | Some (k, r1) =>
                match skip_ws r1 with
                | colon :: r2 =>
                    if Ascii.eqb colon ":" then
                      match scan_once_under l fuel' depth (skip_ws r2) with
                      | Decoded (v, r3) =>
                          let acc' := dict_set k v acc in
                          match skip_ws r3 with
                          | c :: r4 =>
                              if Ascii.eqb c "}" then Decoded (Obj acc', r4)
                              else if Ascii.eqb c ","
                              then scan_members_under l fuel' depth acc'
                                     (skip_ws r4)
                              else JSONDecodeError
                          | [] => JSONDecodeError
                          end
                      | JSONDecodeError => JSONDecodeError
                      | DecodeRaised e => DecodeRaised e
                      end
                    else JSONDecodeError
                | [] => JSONDecodeError
                end
            end
          else JSONDecodeError
      | [] => JSONDecodeError
      end
  end.

(** [json.loads(s)] under the limits [l]. *)
Definition loads_under (l : limits) (s : string) : Decode value :=
  let cs := chars s in
  match scan_once_under l (2 * List.length cs + 2) (max_depth l)
          (skip_ws cs) with
  | Decoded (v, r) =>
      match skip_ws r with [] => Decoded v | _ :: _ => JSONDecodeError end
  | JSONDecodeError => JSONDecodeError
  | DecodeRaised e => DecodeRaised e
  end.

(** The limits of an interpreter as it is installed: [int] converts 4300
    digits, and the stack is taken to hold 1000 nested containers. *)
Definition default_limits : limits :=
  {| max_str_digits := 4300;
     max_depth := 1000;
     digits_error := fun n =>
       "Exceeds the limit (4300 digits) for integer string conversion: value has "
       ++ Py.str_int (Z.of_nat n)
       ++ " digits; use sys.set_int_max_str_digits() to increase the limit";
     depth_error :=
       "maximum recursion depth exceeded while decoding a JSON document" |}.

(** [n] times the digit 7. *)
Fixpoint sevens (n : nat) : string :=
  match n with O => EmptyString | S k => String "7" (sevens k) end.

(** A JSON array that holds one integer of 4301 digits, and the same text
    without its closing bracket, which is no JSON. *)
Definition long_integer : string := "[" ++ sevens 4301 ++ "]".
Definition long_integer_open : string := "[" ++ sevens 4301.

End Json.

(* ================================================================== *)
(** * Declared parameter types of the tools *)

(** [Literal["snippets", "locations", "json"]] *)
Inductive Format : Type := Snippets | Locations | FormatJson.

Definition format_str (f : Format) : string :=
  match f with
  | Snippets => "snippets"
  | Locations => "locations"
  | FormatJson => "json"
  end.

(** The [node_type] literals of [transform]. *)
Inductive NodeType : Type :=
| MacroCall | MethodCall | FunctionCall | EnumUsage
| StructLiteral | MatchArm | Identifier | TypeRef.

Definition node_type_str (n : NodeType) : string :=
  match n with
  | MacroCall => "macro-call"
  | MethodCall => "method-call"
  | FunctionCall => "function-call"
  | EnumUsage => "enum-usage"
  | StructLiteral => "struct-literal"
  | MatchArm => "match-arm"
  | Identifier => "identifier"
  | TypeRef => "type-ref"
  end.

(** [Literal["comment", "remove", "replace"]] *)
Inductive Action : Type := Comment | Remove | Replace.

Definition action_str (a : Action) : string :=
  match a with
  | Comment => "comment"
  | Remove => "remove"
  | Replace => "replace"
  end.

(** [Literal["struct", "enum"]] *)
Inductive TargetType : Type := Struct | Enum.

Definition target_type_str (t : TargetType) : string :=
  match t with
  | Struct => "struct"
  | Enum => "enum"
  end.

(* ================================================================== *)
(** * The child process *)

(** What [subprocess.run(cmd, capture_output=True, text=True, check=False)]
    does inside the [try] of [run_rs_hack]: it returns a completed process
    with its exit code and captured streams, or raises [FileNotFoundError],
    or raises another [Exception] [e], of which the bridge reads [str(e)].
    The call has no timeout: a child that never ends gives no outcome, the
    bridge does not return, and nothing below speaks of that case. *)
Inductive RunOutcome : Type :=
| CompletedProcess (returncode : Z) (stdout stderr : string)
| FileNotFoundError
| OtherException (str_e : string).

(** The message of the bridge when the binary is missing. *)
Definition install_hint : string :=
  "rs-hack not found. Install with: cargo install rs-hack".

(** The words every dry-run response starts with. *)
Definition dry_run_banner : string := "DRY RUN".

(** The reminder that closes every dry-run response. *)
Definition apply_reminder : string := "Use apply=True to make changes.".

(** Worlds for concrete runs: the binary prints [out] and [err] and exits
    with [rc], whatever the command. *)
Definition world (rc : Z) (out err : string) : list string -> RunOutcome :=
  fun _ => CompletedProcess rc out err.

(** A world in which the binary is not installed. *)
Definition world_missing : list string -> RunOutcome :=
  fun _ => FileNotFoundError.

(** A world in which starting the binary raises the exception that prints
    as [str_e]. *)
Definition world_raising (str_e : string) : list string -> RunOutcome :=
  fun _ => OtherException str_e.

(** A world in which the binary answers the one command [cmd] with [o] and
    is missing for every other. *)
Definition world_only (cmd : list string) (o : RunOutcome)
  : list string -> RunOutcome :=
  fun c => if list_eq_dec string_dec c cmd then o else FileNotFoundError.

(* ================================================================== *)
(** * Optional parameters in an argument vector *)

(** What an optional string parameter [p] with flag [flag] adds to a vector
    when it is forwarded only if given and not empty. *)
Definition optional_pair (flag : string) (p : option string) : list string :=
  match p with
  | Some (String _ _ as value) => [flag; value]
  | _ => []
  end.

(** [build], the argument vector as a function of one optional string
    parameter (the other parameters fixed), forwards it as an optional
    flag-plus-value pair: the pair stands in the vector exactly when the
    parameter is given and not empty, and the rest of the vector is the same
    whatever the parameter. *)
Definition forwards_if_given (flag : string)
  (build : option string -> list string) : Prop :=
  exists before after : list string,
    forall p, build p = (before ++ optional_pair flag p ++ after)%list.

(* ================================================================== *)
(** * The server *)

Section Server.

(** Decoded JSON data, [json.loads], and [json.dumps(_, indent=2)] on
    decoded data. *)
Context {JSON : Type}.
Variable json_loads : string -> Decode JSON.
Variable json_dumps : JSON -> string.

(** The operating system: the outcome of running a command line. *)
Variable subprocess_run : list string -> RunOutcome.

(** The dictionary [run_rs_hack] returns.  Its keys are the four literals
    ["success"], ["data"], ["output"] and ["error"]; ["success"] is set at
    every return, the other three are present or absent. *)
Record Result : Type := mkResult {
  success : bool;
  data : option JSON;
  output : option string;
  error : option string
}.

(** [result.get("output", "")] *)
Definition get_output (result : Result) : string :=
  match output result with Some s => s | None => EmptyString end.

(** [json.dumps(result.get("data"), indent=2)]; [json.dumps(None)] is
    ["null"]. *)
Definition dumps_data (result : Result) : string :=
  match data result with Some v => json_dumps v | None => "null" end.

(** [result['error']] *)
Definition getitem_error (result : Result) : Py.m string :=
  match error result with
  | Some e => Py.Returns e
  | None => Py.Raises (Py.KeyError "error")
  end.

(** [run_rs_hack(args)] *)
Definition run_rs_hack (args : list string) : Result :=
  match subprocess_run ("rs-hack" :: args) with
  | CompletedProcess returncode stdout stderr =>
      let output := Py.strip stdout in
      (* the code after the [if] on the output's first character, reached
         when the decoder is not tried or raises [JSONDecodeError] *)
      let by_returncode :=
        if (returncode =? 0)%Z then
          {| success := true; data := None; output := Some output;
             error := None |}
        else
          {| success := false; data := None; output := None;
             error := Some (Py.or (Py.strip stderr) (Py.strip stdout)) |} in
      if Py.startswith output "{" || Py.startswith output "[" then
        match json_loads output with
        | Decoded v =>
            {| success := true; data := Some v; output := None;
               error := None |}
        | JSONDecodeError => by_returncode
        | DecodeRaised str_e =>
            {| success := false; data := None; output := None;
               error := Some str_e |}
        end
      else by_returncode
  | FileNotFoundError =>
      {| success := false; data := None; output := None;
         error := Some install_hint |}
  | OtherException str_e =>
      {| success := false; data := None; output := None;
         error := Some str_e |}
  end.

(** ** Inspection tools *)

Definition inspect_struct_literals_args
  (path : string) (name : option string) (format : Format) : list string :=
  let args := ["inspect"; "--path"; path; "--node-type"; "struct-literal";
               "--format"; format_str format] in
  match name with
  | Some (String _ _ as name) => Py.extend args ["--name"; name]
  | _ => args
  end.

Definition inspect_struct_literals
  (path : string) (name : option string) (format : Format) : Py.m string :=
  let result := run_rs_hack (inspect_struct_literals_args path name format) in
  if success result then
    Py.Returns (Py.or (get_output result) (dumps_data result))
  else
    e <- getitem_error result ;; Py.Returns ("Error: " ++ e).

Definition inspect_match_arms_args
  (path : string) (name : option string) (format : Format) : list string :=
  let args := ["inspect"; "--path"; path; "--node-type"; "match-arm";
               "--format"; format_str format] in
  match name with
  | Some (String _ _ as name) => Py.extend args ["--name"; name]
  | _ => args
  end.

Definition inspect_match_arms
  (path : string) (name : option string) (format : Format) : Py.m string :=
  let result := run_rs_hack (inspect_match_arms_args path name format) in
  if success result then
    Py.Returns (Py.or (get_output result) (dumps_data result))
  else
    e <- getitem_error result ;; Py.Returns ("Error: " ++ e).

Definition inspect_enum_usage_args
  (path name : string) (format : Format) : list string :=
  ["inspect"; "--path"; path; "--node-type"; "enum-usage";
   "--name"; name; "--format"; format_str format].

Definition inspect_enum_usage
  (path name : string) (format : Format) : Py.m string :=
  let result := run_rs_hack (inspect_enum_usage_args path name format) in
  if success result then
    Py.Returns (Py.or (get_output result) (dumps_data result))
  else
    e <- getitem_error result ;; Py.Returns ("Error: " ++ e).

Definition inspect_macro_calls_args
  (path name : string) (content_filter : option string) (format : Format)
  : list string :=
  let args := ["inspect"; "--path"; path; "--node-type"; "macro-call";
               "--name"; name; "--format"; format_str format] in
  match content_filter with
  | Some (String _ _ as content_filter) =>
      Py.extend args ["--content-filter"; content_filter]
  | _ => args
  end.

Definition inspect_macro_calls
  (path name : string) (content_filter : option string) (format : Format)
  : Py.m string :=
  let result :=
    run_rs_hack (inspect_macro_calls_args path name content_filter format) in
  if success result then
    Py.Returns (Py.or (get_output result) (dumps_data result))
  else
    e <- getitem_error result ;; Py.Returns ("Error: " ++ e).

(** ** Struct operations *)

Definition add_struct_field_args
  (path struct_name field : string) (position literal_default : option string)
  (apply : bool) : list string :=
  let args := ["add-struct-field"; "--path"; path; "--struct-name"; struct_name;
               "--field"; field] in
  let args :=
    match position with
    | Some (String _ _ as position) => Py.extend args ["--position"; position]
    | _ => args
    end in
  let args :=
    match literal_default with
    | Some (String _ _ as literal_default) =>
        Py.extend args ["--literal-default"; literal_default]
    | _ => args
    end in
  if apply then Py.append args "--apply" else args.

Definition add_struct_field
  (path struct_name field : string) (position literal_default : option string)
  (apply : bool) : Py.m string :=
  let result :=
    run_rs_hack
      (add_struct_field_args path struct_name field position literal_default
         apply) in
  if success result then
    let output := get_output result in
    if negb apply then
      Py.Returns ("DRY RUN - Preview of changes:" ++ Py.nl ++ output ++ Py.nl
                  ++ Py.nl ++ "Use apply=True to make changes.")
    else Py.Returns (Py.or output "Successfully added struct field")
  else
    e <- getitem_error result ;; Py.Returns ("Error: " ++ e).

Definition update_struct_field_args
  (path struct_name field : string) (apply : bool) : list string :=
  let args := ["update-struct-field"; "--path"; path; "--struct-name";
               struct_name; "--field"; field] in
  if apply then Py.append args "--apply" else args.

Definition update_struct_field
  (path struct_name field : string) (apply : bool) : Py.m string :=
  let result :=
    run_rs_hack (update_struct_field_args path struct_name field apply) in
  if success result then
    let output := get_output result in
    if negb apply then
      Py.Returns ("DRY RUN - Preview:" ++ Py.nl ++ output ++ Py.nl ++ Py.nl
                  ++ "Use apply=True to make changes.")
    else Py.Returns (Py.or output "Successfully updated struct field")
  else
    e <- getitem_error result ;; Py.Returns ("Error: " ++ e).

(** ** Enum operations *)

Definition add_enum_variant_args
  (path enum_name variant : string) (apply : bool) : list string :=
  let args := ["add-enum-variant"; "--path"; path; "--enum-name"; enum_name;
               "--variant"; variant] in
  if apply then Py.append args "--apply" else args.

Definition add_enum_variant
  (path enum_name variant : string) (apply : bool) : Py.m string :=
  let result :=
    run_rs_hack (add_enum_variant_args path enum_name variant apply) in
  if success result then
    let output := get_output result in
    if negb apply then
      Py.Returns ("DRY RUN - Preview:" ++ Py.nl ++ output ++ Py.nl ++ Py.nl
                  ++ "Use apply=True to make changes.")
    else Py.Returns (Py.or output "Successfully added enum variant")
  else
    e <- getitem_error result ;; Py.Returns ("Error: " ++ e).

Definition rename_enum_variant_args
  (path enum_name old_variant new_variant : string) (apply : bool)
  : list string :=
  let args := ["rename-enum-variant"; "--paths"; path; "--enum-name"; enum_name;
               "--old-variant"; old_variant; "--new-variant"; new_variant] in
  if apply then Py.append args "--apply" else args.

Definition rename_enum_variant
  (path enum_name old_variant new_variant : string) (apply : bool)
  : Py.m string :=
  let result :=
    run_rs_hack
      (rename_enum_variant_args path enum_name old_variant new_variant apply) in
  if success result then
    let output := get_output result in
    if negb apply then
      Py.Returns ("DRY RUN - Preview:" ++ Py.nl ++ output ++ Py.nl ++ Py.nl
                  ++ "Use apply=True to make changes.")
    else
      Py.Returns
        (Py.or output
           ("Successfully renamed " ++ old_variant ++ " to " ++ new_variant))
  else
    e <- getitem_error result ;; Py.Returns ("Error: " ++ e).

(** ** Match operations *)

Definition add_match_arm_args
  (path pattern body : string) (function enum_name : option string)
  (auto_detect apply : bool) : list string :=
  let args := ["add-match-arm"; "--path"; path] in
  let args :=
    if auto_detect then
      let args :=
        Py.extend args ["--auto-detect"; "--enum-name"; Py.or_empty enum_name;
                        "--body"; body] in
      match function with
      | Some (String _ _ as function) => Py.extend args ["--function"; function]
      | _ => args
      end
    else
      let args := Py.extend args ["--pattern"; pattern; "--body"; body] in
      match function with
      | Some (String _ _ as function) => Py.extend args ["--function"; function]
      | _ => args
      end in
  if apply then Py.append args "--apply" else args.

Definition add_match_arm
  (path pattern body : string) (function enum_name : option string)
  (auto_detect apply : bool) : Py.m string :=
  let result :=
    run_rs_hack
      (add_match_arm_args path pattern body function enum_name auto_detect
         apply) in
  if success result then
    let output := get_output result in
    if negb apply then
      Py.Returns ("DRY RUN - Preview:" ++ Py.nl ++ output ++ Py.nl ++ Py.nl
                  ++ "Use apply=True to make changes.")
    else Py.Returns (Py.or output "Successfully added match arm(s)")
  else
    e <- getitem_error result ;; Py.Returns ("Error: " ++ e).

(** ** Transform *)

Definition transform_args
  (path : string) (node_type : NodeType) (action : Action)
  (name content_filter replacement : option string) (apply : bool)
  : list string :=
  let args := ["transform"; "--path"; path; "--node-type";
               node_type_str node_type; "--action"; action_str action] in
  let args :=
    match name with
    | Some (String _ _ as name) => Py.extend args ["--name"; name]
    | _ => args
    end in
  let args :=
    match content_filter with
    | Some (String _ _ as content_filter) =>
        Py.extend args ["--content-filter"; content_filter]
    | _ => args
    end in
  let args :=
    if String.eqb (action_str action) "replace" then
      match replacement with
      | Some (String _ _ as replacement) => Py.extend args ["--with"; replacement]
      | _ => args
      end
    else args in
  if apply then Py.append args "--apply" else args.

Definition transform
  (path : string) (node_type : NodeType) (action : Action)
  (name content_filter replacement : option string) (apply : bool)
  : Py.m string :=
  let result :=
    run_rs_hack
      (transform_args path node_type action name content_filter replacement
         apply) in
  if success result then
    let output := get_output result in
    if negb apply then
      Py.Returns ("DRY RUN - Preview:" ++ Py.nl ++ output ++ Py.nl ++ Py.nl
                  ++ "Use apply=True to make changes.")
    else
      Py.Returns
        (Py.or output
           ("Successfully performed " ++ action_str action ++ " operation"))
  else
    e <- getitem_error result ;; Py.Returns ("Error: " ++ e).

(** ** Derive *)

Definition add_derive_args
  (path : string) (target_type : TargetType) (name derives : string)
  (where_filter : option string) (apply : bool) : list string :=
  let args := ["add-derive"; "--path"; path; "--target-type";
               target_type_str target_type; "--name"; name;
               "--derives"; derives] in
  let args :=
    match where_filter with
    | Some (String _ _ as where_filter) => Py.extend args ["--where"; where_filter]
    | _ => args
    end in
  if apply then Py.append args "--apply" else args.

Definition add_derive
  (path : string) (target_type : TargetType) (name derives : string)
  (where_filter : option string) (apply : bool) : Py.m string :=
  let result :=
    run_rs_hack
      (add_derive_args path target_type name derives where_filter apply) in
  if success result then
    let output := get_output result in
    if negb apply then
      Py.Returns ("DRY RUN - Preview:" ++ Py.nl ++ output ++ Py.nl ++ Py.nl
                  ++ "Use apply=True to make changes.")
    else Py.Returns (Py.or output "Successfully added derives")
  else
    e <- getitem_error result ;; Py.Returns ("Error: " ++ e).

(** ** History and revert *)

Definition show_history_args (limit : Z) : list string :=
  ["history"; "--limit"; Py.str_int limit].

Definition show_history (limit : Z) : Py.m string :=
  let result := run_rs_hack (show_history_args limit) in
  if success result then
    Py.Returns (Py.or (get_output result) "No history available")
  else
    e <- getitem_error result ;; Py.Returns ("Error: " ++ e).

Definition revert_operation_args (run_id : string) (force : bool)
  : list string :=
  let args := ["revert"; run_id] in
  if force then Py.append args "--force" else args.

Definition revert_operation (run_id : string) (force : bool) : Py.m string :=
  let result := run_rs_hack (revert_operation_args run_id force) in
  if success result then
    Py.Returns
      (Py.or (get_output result)
         ("Successfully reverted operation " ++ run_id))
  else
    e <- getitem_error result ;; Py.Returns ("Error: " ++ e).

(** ** The registry

    A request names one of the thirteen registered tools and gives its
    arguments; an argument that has a default in the tool's signature may
    be left out ([None]).  An optional string left out is [None], which is
    also its default. *)
Inductive ToolCall : Type :=
| InspectStructLiterals (path : string) (name : option string)
    (format : option Format)
| InspectMatchArms (path : string) (name : option string)
    (format : option Format)
| InspectEnumUsage (path name : string) (format : option Format)
| InspectMacroCalls (path name : string) (content_filter : option string)
    (format : option Format)
| AddStructField (path struct_name field : string)
    (position literal_default : option string) (apply : option bool)
| UpdateStructField (path struct_name field : string) (apply : option bool)
| AddEnumVariant (path enum_name variant : string) (apply : option bool)
| RenameEnumVariant (path enum_name old_variant new_variant : string)
    (apply : option bool)
| AddMatchArm (path pattern body : string) (function enum_name : option string)
    (auto_detect apply : option bool)
| Transform (path : string) (node_type : NodeType) (action : Action)
    (name content_filter replacement : option string) (apply : option bool)
| AddDerive (path : string) (target_type : TargetType) (name derives : string)
    (where_filter : option string) (apply : option bool)
| ShowHistory (limit : option Z)
| RevertOperation (run_id : string) (force : option bool).

(** An argument, or the default of the signature when it is left out. *)
Definition or_default {A : Type} (default : A) (given : option A) : A :=
  match given with Some a => a | None => default end.

(** The argument vector a request hands to the bridge. *)
Definition call_args (c : ToolCall) : list string :=
  match c with
  | InspectStructLiterals path name format =>
      inspect_struct_literals_args path name (or_default Snippets format)
  | InspectMatchArms path name format =>
      inspect_match_arms_args path name (or_default Snippets format)
  | InspectEnumUsage path name format =>
      inspect_enum_usage_args path name (or_default Snippets format)
  | InspectMacroCalls path name content_filter format =>
      inspect_macro_calls_args path name content_filter
        (or_default Snippets format)
  | AddStructField path struct_name field position literal_default apply =>
      add_struct_field_args path struct_name field position literal_default
        (or_default false apply)
  | UpdateStructField path struct_name field apply =>
      update_struct_field_args path struct_name field (or_default false apply)
  | AddEnumVariant path enum_name variant apply =>
      add_enum_variant_args path enum_name variant (or_default false apply)
  | RenameEnumVariant path enum_name old_variant new_variant apply =>
      rename_enum_variant_args path enum_name old_variant new_variant
        (or_default false apply)
  | AddMatchArm path pattern body function enum_name auto_detect apply =>
      add_match_arm_args path pattern body function enum_name
        (or_default false auto_detect) (or_default false apply)
  | Transform path node_type action name content_filter replacement apply =>
      transform_args path node_type action name content_filter replacement
        (or_default false apply)
  | AddDerive path target_type name derives where_filter apply =>
      add_derive_args path target_type name derives where_filter
        (or_default false apply)
  | ShowHistory limit => show_history_args (or_default 10%Z limit)
  | RevertOperation run_id force =>
      revert_operation_args run_id (or_default false force)
  end.

(** The registry serving a request: the tool function on the given
    arguments and the defaults of its signature. *)
Definition call (c : ToolCall) : Py.m string :=
  match c with
  | InspectStructLiterals path name format =>
      inspect_struct_literals path name (or_default Snippets format)
  | InspectMatchArms path name format =>
      inspect_match_arms path name (or_default Snippets format)
  | InspectEnumUsage path name format =>
      inspect_enum_usage path name (or_default Snippets format)
  | InspectMacroCalls path name content_filter format =>
      inspect_macro_calls path name content_filter (or_default Snippets format)
  | AddStructField path struct_name field position literal_default apply =>
      add_struct_field path struct_name field position literal_default
        (or_default false apply)
  | UpdateStructField path struct_name field apply =>
      update_struct_field path struct_name field (or_default false apply)
  | AddEnumVariant path enum_name variant apply =>
      add_enum_variant path enum_name variant (or_default false apply)
  | RenameEnumVariant path enum_name old_variant new_variant apply =>
      rename_enum_variant path enum_name old_variant new_variant
        (or_default false apply)
  | AddMatchArm path pattern body function enum_name auto_detect apply =>
      add_match_arm path pattern body function enum_name
        (or_default false auto_detect) (or_default false apply)
  | Transform path node_type action name content_filter replacement apply =>
      transform path node_type action name content_filter replacement
        (or_default false apply)
  | AddDerive path target_type name derives where_filter apply =>
      add_derive path target_type name derives where_filter
        (or_default false apply)
  | ShowHistory limit => show_history (or_default 10%Z limit)
  | RevertOperation run_id force =>
      revert_operation run_id (or_default false force)
  end.

(** The [apply] argument of a request to an apply-capable tool, as given
    ([Some None]: left out); [None] for a tool without one. *)
Definition apply_argument (c : ToolCall) : option (option bool) :=
  match c with
  | AddStructField _ _ _ _ _ apply
  | UpdateStructField _ _ _ apply
  | AddEnumVariant _ _ _ apply
  | RenameEnumVariant _ _ _ _ apply
  | AddMatchArm _ _ _ _ _ _ apply
  | Transform _ _ _ _ _ _ apply
  | AddDerive _ _ _ _ _ apply => Some apply
  | _ => None
  end.

(** The parameters a tool repeats in its confirmation message:
    [rename_enum_variant] names both variants, no other apply-capable tool
    repeats a string parameter. *)
Definition echoed (c : ToolCall) : string :=
  match c with
  | RenameEnumVariant _ _ old_variant new_variant _ =>
      old_variant ++ " to " ++ new_variant
  | _ => EmptyString
  end.

(** ** Vocabulary of the statements *)

(** The bridge tries the decoder on this output. *)
Definition looks_like_json (output : string) : bool :=
  Py.startswith output "{" || Py.startswith output "[".

(** The three shapes of a result. *)
Definition success_with_data (v : JSON) : Result :=
  {| success := true; data := Some v; output := None; error := None |}.
Definition success_with_text (text : string) : Result :=
  {| success := true; data := None; output := Some text; error := None |}.
Definition failure (message : string) : Result :=
  {| success := false; data := None; output := None; error := Some message |}.

Definition is_success_with_data (r : Result) : Prop :=
  exists v, r = success_with_data v.
Definition is_success_with_text (r : Result) : Prop :=
  exists text, r = success_with_text text.
Definition is_failure (r : Result) : Prop :=
  exists message, r = failure message.

(** The text the bridge put into a result: the output of a success, the
    message of a failure. *)
Definition bridge_text (r : Result) : string :=
  if success r then get_output r else Py.or_empty (error r).

(** The end of a vector: [--apply] when the flag is set. *)
Definition apply_flag (apply : bool) : list string :=
  if apply then ["--apply"] else [].

(** ** Requests by kind *)

(** The four inspection tools, which print decoded data. *)
Definition is_inspect (c : ToolCall) : bool :=
  match c with
  | InspectStructLiterals _ _ _ | InspectMatchArms _ _ _
  | InspectEnumUsage _ _ _ | InspectMacroCalls _ _ _ _ => true
  | _ => false
  end.

(** A request to an apply-capable tool with [apply] left out or false. *)
Definition is_dry_run (c : ToolCall) : bool :=
  match apply_argument c with
  | Some apply => negb (or_default false apply)
  | None => false
  end.

(** ** The tests of [test_server.py]

    A test is the truth value of its assertions: [true] when the test
    passes, [false] when an [assert] fails.  A test that returns before
    its assertion passes. *)

(** [key in result] *)
Definition has_key (key : string) (result : Result) : bool :=
  if String.eqb key "success" then true
  else if String.eqb key "data" then
    match data result with Some _ => true | None => false end
  else if String.eqb key "output" then
    match output result with Some _ => true | None => false end
  else if String.eqb key "error" then
    match error result with Some _ => true | None => false end
  else false.

(** [result.get("error", "")] *)
Definition get_error (result : Result) : string :=
  match error result with Some e => e | None => EmptyString end.

Definition test_rs_hack_version : bool :=
  let result := run_rs_hack ["--version"] in
  has_key "success" result.

Definition test_help_command : bool :=
  let result := run_rs_hack ["--help"] in
  success result || Py.contains (get_error result) "rs-hack not found".

Definition test_error_handling : bool :=
  let result := run_rs_hack ["invalid-command"] in
  negb (success result) && has_key "error" result.

Definition test_inspect_returns_structure : bool :=
  let result := run_rs_hack ["inspect"; "--help"] in
  if success result then has_key "output" result || has_key "data" result
  else Py.contains (get_error result) "rs-hack not found".

Definition test_history_command : bool :=
  let result := run_rs_hack ["history"; "--limit"; "5"] in
  if Py.contains (get_error result) "rs-hack not found" then true
  else has_key "success" result.

Definition test_inspect_with_invalid_path : bool :=
  let result :=
    run_rs_hack ["inspect"; "--path"; "/nonexistent/path.rs";
                 "--node-type"; "struct-literal"] in
  if Py.contains (get_error result) "rs-hack not found" then true
  else has_key "error" result || success result.

(** ** Proof steps *)

(** Unfolds the tool a request is dispatched to, down to its reading of the
    bridge's result. *)
Ltac unfold_tool :=
  cbn [call call_args];
  unfold inspect_struct_literals, inspect_match_arms, inspect_enum_usage,
    inspect_macro_calls, add_struct_field, update_struct_field,
    add_enum_variant, rename_enum_variant, add_match_arm, transform,
    add_derive, show_history, revert_operation;
  cbv zeta.

(** Settles an equation between argument vectors by cases on the optional
    strings, the flags and the action it mentions. *)
Ltac by_cases_on_parameters :=
  intros;
  repeat match goal with
         | p : option string |- _ => destruct p as [[|? ?]|]
         | b : bool |- _ => destruct b
         | a : Action |- _ => destruct a
         end;
  try split; reflexivity.

(* ================================================================== *)
(** * The bridge [run_rs_hack] *)

(** The bridge on a process that ran to completion: the decoder is tried
    first, on an output that starts with a brace or a bracket; the exit code
    is read only when the decoder was not tried or rejected the output. *)
Lemma run_rs_hack_completed (args : list string) (rc : Z) (out err : string) :
  subprocess_run ("rs-hack" :: args) = CompletedProcess rc out err ->
  run_rs_hack args =
    match (if looks_like_json (Py.strip out)
           then json_loads (Py.strip out) else JSONDecodeError) with
    | Decoded v => success_with_data v
    | JSONDecodeError =>
        if (rc =? 0)%Z then success_with_text (Py.strip out)
        else failure (Py.or (Py.strip err) (Py.strip out))
    | DecodeRaised str_e => failure str_e
    end.
Proof.
  intros Hrun. unfold run_rs_hack, looks_like_json. rewrite Hrun.
  destruct (Py.startswith (Py.strip out) "{" || Py.startswith (Py.strip out) "[");
    [destruct (json_loads (Py.strip out))|]; reflexivity.
Qed.

(** The three shapes exclude one another. *)
Lemma shapes_disjoint (r : Result) :
  (is_success_with_data r -> ~ is_success_with_text r /\ ~ is_failure r)
  /\ (is_success_with_text r -> ~ is_failure r).
Proof.
  split.
  - intros [v ->]. split; intros [x Hx]; discriminate Hx.
  - intros [t ->] [x Hx]. discriminate Hx.
Qed.

(** C1, as amended.  When the binary runs to completion with a non-zero exit
    code and its trimmed stdout is not decoded as JSON, the bridge returns a
    failure.  Its message is the trimmed stderr, or the trimmed stdout when
    the trimmed stderr is empty, when the stdout does not start with an
    opening brace or bracket or [json.loads] raises [JSONDecodeError] on it;
    it is the text of the exception when [json.loads] raises another
    one. *)
Theorem run_rs_hack_nonzero_exit
  (args : list string) (rc : Z) (out err : string) :
  subprocess_run ("rs-hack" :: args) = CompletedProcess rc out err ->
  rc <> 0%Z ->
  (looks_like_json (Py.strip out) = false
   \/ json_loads (Py.strip out) = JSONDecodeError ->
   run_rs_hack args
   = failure (if Py.truthy (Py.strip err) then Py.strip err else Py.strip out))
  /\ (forall str_e,
        looks_like_json (Py.strip out) = true ->
        json_loads (Py.strip out) = DecodeRaised str_e ->
        run_rs_hack args = failure str_e).
Proof.
  intros Hrun Hrc. rewrite (run_rs_hack_completed _ _ _ _ Hrun). split.
  - intros Hjson.
    assert (Hdec : (if looks_like_json (Py.strip out)
                    then json_loads (Py.strip out) else JSONDecodeError)
                   = JSONDecodeError).
    { destruct Hjson as [-> | Hnone]; [reflexivity|].
      rewrite Hnone. now destruct (looks_like_json _). }
    rewrite Hdec. apply Z.eqb_neq in Hrc. rewrite Hrc. reflexivity.
  - intros str_e -> ->. reflexivity.
Qed.

(** C2, as amended.  When the trimmed stdout starts with an opening brace or
    bracket and [json.loads] returns a value for it, the bridge returns
    success with that value, whatever the exit code. *)
Theorem run_rs_hack_json_any_exit_code
  (args : list string) (rc : Z) (out err : string) (v : JSON) :
  subprocess_run ("rs-hack" :: args) = CompletedProcess rc out err ->
  looks_like_json (Py.strip out) = true ->
  json_loads (Py.strip out) = Decoded v ->
  run_rs_hack args = success_with_data v.
Proof.
  intros Hrun Hlooks Hv. rewrite (run_rs_hack_completed _ _ _ _ Hrun).
  rewrite Hlooks, Hv. reflexivity.
Qed.

(** C3, as amended.  When the binary exits with code 0 and its trimmed
    stdout starts with an opening brace or bracket: if [json.loads] returns
    a value the bridge returns success with that value; if it raises
    [JSONDecodeError], success with the trimmed stdout as text; if it raises
    another exception, the failure with the text of that exception. *)
Theorem run_rs_hack_exit_zero
  (args : list string) (out err : string) :
  subprocess_run ("rs-hack" :: args) = CompletedProcess 0 out err ->
  looks_like_json (Py.strip out) = true ->
  (forall v, json_loads (Py.strip out) = Decoded v ->
             run_rs_hack args = success_with_data v)
  /\ (json_loads (Py.strip out) = JSONDecodeError ->
      run_rs_hack args = success_with_text (Py.strip out))
  /\ (forall str_e, json_loads (Py.strip out) = DecodeRaised str_e ->
                    run_rs_hack args = failure str_e).
Proof.
  intros Hrun Hlooks. rewrite (run_rs_hack_completed _ _ _ _ Hrun), Hlooks.
  repeat split.
  - intros v ->. reflexivity.
  - intros ->. reflexivity.
  - intros str_e ->. reflexivity.
Qed.

(** C4.  When the executable is not found, the bridge returns the failure
    whose message is the installation hint, for every argument list. *)
Theorem run_rs_hack_not_found (args : list string) :
  subprocess_run ("rs-hack" :: args) = FileNotFoundError ->
  run_rs_hack args = failure install_hint
  /\ exists message,
       error (run_rs_hack args) = Some message
       /\ Py.contains message
            "rs-hack not found. Install with: cargo install rs-hack" = true.
Proof.
  intros Hrun. unfold run_rs_hack. rewrite Hrun. split; [reflexivity|].
  exists install_hint. split; reflexivity.
Qed.

(** Every result of the bridge has one of the three shapes. *)
Lemma run_rs_hack_cases (args : list string) :
  is_success_with_data (run_rs_hack args)
  \/ is_success_with_text (run_rs_hack args)
  \/ is_failure (run_rs_hack args).
Proof.
  destruct (subprocess_run ("rs-hack" :: args)) as [rc out err | | e] eqn:Hrun.
  - rewrite (run_rs_hack_completed _ _ _ _ Hrun).
    set (decoded := if looks_like_json (Py.strip out)
                    then json_loads (Py.strip out) else JSONDecodeError).
    destruct decoded as [v | | e]; cbv zeta.
    + left. now exists v.
    + destruct (rc =? 0)%Z.
      * right; left. now eexists.
      * right; right. now eexists.
    + right; right. now eexists.
  - unfold run_rs_hack. rewrite Hrun. right; right. now eexists.
  - unfold run_rs_hack. rewrite Hrun. right; right. now eexists.
Qed.

(** C9.  Every result of the bridge has exactly one of the three shapes:
    success with decoded data, success with output text, failure with a
    message. *)
Theorem run_rs_hack_result_shape (args : list string) :
  let r := run_rs_hack args in
  (is_success_with_data r /\ ~ is_success_with_text r /\ ~ is_failure r)
  \/ (~ is_success_with_data r /\ is_success_with_text r /\ ~ is_failure r)
  \/ (~ is_success_with_data r /\ ~ is_success_with_text r /\ is_failure r).
Proof.
  intros r.
  destruct (shapes_disjoint r) as [Hdata Htext].
  destruct (run_rs_hack_cases args) as [H | [H | H]]; fold r in H.
  - left. split; [exact H | exact (Hdata H)].
  - right; left. repeat split; [ | exact H | exact (Htext H)].
    intros Hd. destruct (Hdata Hd) as [Hn _]. exact (Hn H).
  - right; right. repeat split; [ | | exact H].
    + intros Hd. destruct (Hdata Hd) as [_ Hn]. exact (Hn H).
    + intros Ht. exact (Htext Ht H).
Qed.

(* ================================================================== *)
(** * The tools *)

(** A failure of the bridge carries a message, so [result['error']] never
    raises in a tool. *)
Lemma failure_has_message (args : list string) :
  success (run_rs_hack args) = false ->
  exists message, error (run_rs_hack args) = Some message.
Proof.
  destruct (run_rs_hack_cases args) as [[v ->] | [[t ->] | [m ->]]].
  - discriminate.
  - discriminate.
  - intros _. now exists m.
Qed.

(** What a tool answers on a result that is a failure with a message. *)
Lemma error_branch (r : Result) (m : string) :
  error r = Some m ->
  (e <- getitem_error r ;; Py.Returns ("Error: " ++ e))
  = Py.Returns ("Error: " ++ m).
Proof. intros He. unfold getitem_error. rewrite He. reflexivity. Qed.

(** On a failure of the bridge every tool answers with the bridge's
    message behind the words [Error: ]. *)
Lemma call_failure_response (c : ToolCall) :
  success (run_rs_hack (call_args c)) = false ->
  exists m,
    error (run_rs_hack (call_args c)) = Some m
    /\ call c = Py.Returns ("Error: " ++ m).
Proof.
  intros Hfail. destruct (failure_has_message _ Hfail) as [m Hm].
  exists m. split; [exact Hm|]. revert Hfail Hm.
  destruct c; unfold_tool; intros Hfail Hm; rewrite Hfail;
    apply error_branch; exact Hm.
Qed.

(** C8.  Whatever the tool and its arguments, when the bridge returns a
    failure with message [m], the tool returns the text [Error: ] followed
    by [m]. *)
Theorem tool_reports_bridge_failure (c : ToolCall) (m : string) :
  success (run_rs_hack (call_args c)) = false ->
  error (run_rs_hack (call_args c)) = Some m ->
  call c = Py.Returns ("Error: " ++ m).
Proof.
  destruct c; unfold_tool; intros Hfail Herr; rewrite Hfail;
    apply error_branch; exact Herr.
Qed.

(** The banner does not start inside the words a tool puts before the
    bridge's message, nor inside a fixed confirmation message. *)
Lemma banner_not_in_error_prefix (m : string) :
  Py.contains ("Error: " ++ m) dry_run_banner = Py.contains m dry_run_banner.
Proof. reflexivity. Qed.

Lemma banner_not_in_rename_prefix (rest : string) :
  Py.contains ("Successfully renamed " ++ rest) dry_run_banner
  = Py.contains rest dry_run_banner.
Proof. reflexivity. Qed.

(** [a or b] holds the banner only if [a] does or [b] does. *)
Lemma banner_not_in_or (a b : string) :
  Py.contains a dry_run_banner = false ->
  Py.contains b dry_run_banner = false ->
  Py.contains (Py.or a b) dry_run_banner = false.
Proof. intros Ha Hb. unfold Py.or. now destruct (Py.truthy a). Qed.

(** C5, as amended.  For every apply-capable tool and every argument set the
    tool returns a text [s].  When [apply] is left out or false and the
    bridge returns success, [s] starts with the dry-run banner: it is a
    heading that starts with the banner, the output, and the reminder how to
    apply.  When [apply] is true the tool adds no banner: [s] holds the
    banner only if the text of the bridge's result holds it, or a parameter
    the confirmation message repeats does. *)
Theorem apply_tools_dry_run_banner (c : ToolCall) (apply : option bool) :
  apply_argument c = Some apply ->
  let r := run_rs_hack (call_args c) in
  exists s,
    call c = Py.Returns s
    /\ (or_default false apply = false -> success r = true ->
        Py.startswith s dry_run_banner = true
        /\ exists heading,
             Py.startswith heading dry_run_banner = true
             /\ s = heading ++ Py.nl ++ get_output r ++ Py.nl ++ Py.nl
                    ++ apply_reminder)
    /\ (or_default false apply = true ->
        Py.contains (bridge_text r) dry_run_banner = false ->
        Py.contains (echoed c) dry_run_banner = false ->
        Py.contains s dry_run_banner = false).
Proof.
  intros Hc r.
  destruct (success r) eqn:Hsucc.
  - (* the bridge succeeded *)
    destruct c; try discriminate Hc; injection Hc as <-;
      subst r; unfold bridge_text; unfold_tool; cbn [call_args] in Hsucc;
      rewrite Hsucc; cbn [echoed];
      (destruct (or_default false apply0) eqn:Happly; cbn [negb];
       eexists; (split; [reflexivity|]); split;
       [ discriminate
       | intros _ Hout Hecho
       | intros _ _; split; [reflexivity | eexists; split; [|reflexivity]; reflexivity]
       | discriminate ]).
    + now apply banner_not_in_or.
    + now apply banner_not_in_or.
    + now apply banner_not_in_or.
    + apply banner_not_in_or; [exact Hout|].
      rewrite banner_not_in_rename_prefix. exact Hecho.
    + now apply banner_not_in_or.
    + apply banner_not_in_or; [exact Hout|]. now destruct action.
    + now apply banner_not_in_or.
  - (* the bridge failed *)
    destruct (call_failure_response _ Hsucc) as [m [Hm Hcall]].
    exists ("Error: " ++ m). split.
    + exact Hcall.
    + split; [discriminate|].
      intros _ Htext _. rewrite banner_not_in_error_prefix.
      unfold bridge_text in Htext. fold r in Hm.
      rewrite Hsucc, Hm in Htext. exact Htext.
Qed.

(* ================================================================== *)
(** * Argument vectors *)

(** C6.  [add_enum_variant("src/types.rs", "Status", "Archived")] with
    [apply=False] builds the seven-element vector without [--apply] and, on
    a successful bridge result with empty output, returns a response that
    starts with the dry-run banner; with [apply=True] the vector ends with
    [--apply] and, on empty successful output, the response is
    [Successfully added enum variant]. *)
Theorem add_enum_variant_scenario :
  let dry := add_enum_variant_args "src/types.rs" "Status" "Archived" false in
  let wet := add_enum_variant_args "src/types.rs" "Status" "Archived" true in
  dry = ["add-enum-variant"; "--path"; "src/types.rs"; "--enum-name"; "Status";
         "--variant"; "Archived"]
  /\ ~ In "--apply" dry
  /\ (success (run_rs_hack dry) = true ->
      get_output (run_rs_hack dry) = EmptyString ->
      add_enum_variant "src/types.rs" "Status" "Archived" false
      = Py.Returns ("DRY RUN - Preview:" ++ Py.nl ++ Py.nl ++ Py.nl
                    ++ "Use apply=True to make changes.")
      /\ Py.startswith ("DRY RUN - Preview:" ++ Py.nl ++ Py.nl ++ Py.nl
                        ++ "Use apply=True to make changes.") dry_run_banner
         = true)
  /\ wet = (dry ++ ["--apply"])%list
  /\ In "--apply" wet
  /\ (success (run_rs_hack wet) = true ->
      get_output (run_rs_hack wet) = EmptyString ->
      add_enum_variant "src/types.rs" "Status" "Archived" true
      = Py.Returns "Successfully added enum variant").
Proof.
  cbv zeta. split; [reflexivity|]. split.
  { cbn. intros [H | [H | [H | [H | [H | [H | [H | []]]]]]]]; discriminate H. }
  split.
  { intros Hsucc Hout. unfold add_enum_variant. rewrite Hsucc, Hout.
    split; reflexivity. }
  split; [reflexivity|]. split.
  { cbn. do 7 right. left. reflexivity. }
  intros Hsucc Hout. unfold add_enum_variant. rewrite Hsucc, Hout.
  reflexivity.
Qed.

(** C7.  [revert_operation("a05a626", force=False)] builds the vector
    [revert a05a626]; with [force=True] the vector is the same with
    [--force] appended, as for every run id. *)
Theorem revert_operation_scenario :
  revert_operation_args "a05a626" false = ["revert"; "a05a626"]
  /\ revert_operation_args "a05a626" true = ["revert"; "a05a626"; "--force"]
  /\ call_args (RevertOperation "a05a626" None) = ["revert"; "a05a626"]
  /\ forall run_id,
       revert_operation_args run_id true
       = (revert_operation_args run_id false ++ ["--force"])%list.
Proof. repeat split. Qed.

(** A vector that is a frame around the optional pair forwards the
    parameter. *)
Lemma forwards_if_given_intro (flag : string)
  (build : option string -> list string) (before after : list string) :
  (forall p, build p = (before ++ optional_pair flag p ++ after)%list) ->
  forwards_if_given flag build.
Proof. intros H. exists before, after. exact H. Qed.

(** C10, as amended.  Every optional string parameter other than
    [replacement] of [transform] and [enum_name] of [add_match_arm] is
    forwarded as its flag followed by its value exactly when it is given and
    not empty, and adds nothing to the vector otherwise.  [replacement] is
    forwarded that way as [--with] when the action is [replace]; under the
    other two actions it is not forwarded.  [enum_name] is no optional pair:
    with [auto_detect] the vector always holds [--enum-name] followed by the
    name, or by the empty string when the name is left out; without
    [auto_detect] the name is not forwarded. *)
Theorem optional_parameters_forwarded :
  (forall path format,
     forwards_if_given "--name"
       (fun p => inspect_struct_literals_args path p format))
  /\ (forall path format,
        forwards_if_given "--name"
          (fun p => inspect_match_arms_args path p format))
  /\ (forall path name format,
        forwards_if_given "--content-filter"
          (fun p => inspect_macro_calls_args path name p format))
  /\ (forall path struct_name field literal_default apply,
        forwards_if_given "--position"
          (fun p => add_struct_field_args path struct_name field p
                      literal_default apply))
  /\ (forall path struct_name field position apply,
        forwards_if_given "--literal-default"
          (fun p => add_struct_field_args path struct_name field position p
                      apply))
  /\ (forall path pattern body enum_name auto_detect apply,
        forwards_if_given "--function"
          (fun p => add_match_arm_args path pattern body p enum_name
                      auto_detect apply))
  /\ (forall path node_type action content_filter replacement apply,
        forwards_if_given "--name"
          (fun p => transform_args path node_type action p content_filter
                      replacement apply))
  /\ (forall path node_type action name replacement apply,
        forwards_if_given "--content-filter"
          (fun p => transform_args path node_type action name p replacement
                      apply))
  /\ (forall path target_type name derives apply,
        forwards_if_given "--where"
          (fun p => add_derive_args path target_type name derives p apply))
  /\ (forall path node_type name content_filter apply,
        forwards_if_given "--with"
          (fun p => transform_args path node_type Replace name content_filter
                      p apply))
  /\ (forall path node_type name content_filter apply p,
        transform_args path node_type Comment name content_filter p apply
        = transform_args path node_type Comment name content_filter None apply
        /\ transform_args path node_type Remove name content_filter p apply
           = transform_args path node_type Remove name content_filter None
               apply)
  /\ (forall path pattern body function apply,
        exists before after : list string,
          forall p,
            add_match_arm_args path pattern body function p true apply
            = (before ++ ["--enum-name"; Py.or_empty p] ++ after)%list)
  /\ (forall path pattern body function apply p,
        add_match_arm_args path pattern body function p false apply
        = add_match_arm_args path pattern body function None false apply).
Proof.
  repeat apply conj.
  - intros path format.
    apply forwards_if_given_intro
      with (before := ["inspect"; "--path"; path; "--node-type";
                       "struct-literal"; "--format"; format_str format])
           (after := []).
    by_cases_on_parameters.
  - intros path format.
    apply forwards_if_given_intro
      with (before := ["inspect"; "--path"; path; "--node-type"; "match-arm";
                       "--format"; format_str format])
           (after := []).
    by_cases_on_parameters.
  - intros path name format.
    apply forwards_if_given_intro
      with (before := ["inspect"; "--path"; path; "--node-type"; "macro-call";
                       "--name"; name; "--format"; format_str format])
           (after := []).
    by_cases_on_parameters.
  - intros path struct_name field literal_default apply.
    apply forwards_if_given_intro
      with (before := ["add-struct-field"; "--path"; path; "--struct-name";
                       struct_name; "--field"; field])
           (after := (optional_pair "--literal-default" literal_default
                      ++ apply_flag apply)%list).
    by_cases_on_parameters.
  - intros path struct_name field position apply.
    apply forwards_if_given_intro
      with (before := (["add-struct-field"; "--path"; path; "--struct-name";
                        struct_name; "--field"; field]
                       ++ optional_pair "--position" position)%list)
           (after := apply_flag apply).
    by_cases_on_parameters.
  - intros path pattern body enum_name auto_detect apply.
    apply forwards_if_given_intro
      with (before := (["add-match-arm"; "--path"; path]
                       ++ (if auto_detect
                           then ["--auto-detect"; "--enum-name";
                                 Py.or_empty enum_name; "--body"; body]
                           else ["--pattern"; pattern; "--body"; body]))%list)
           (after := apply_flag apply).
    by_cases_on_parameters.
  - intros path node_type action content_filter replacement apply.
    apply forwards_if_given_intro
      with (before := ["transform"; "--path"; path; "--node-type";
                       node_type_str node_type; "--action"; action_str action])
           (after := (optional_pair "--content-filter" content_filter
                      ++ (if String.eqb (action_str action) "replace"
                          then optional_pair "--with" replacement else [])
                      ++ apply_flag apply)%list).
    by_cases_on_parameters.
  - intros path node_type action name replacement apply.
    apply forwards_if_given_intro
      with (before := (["transform"; "--path"; path; "--node-type";
                        node_type_str node_type; "--action"; action_str action]
                       ++ optional_pair "--name" name)%list)
           (after := ((if String.eqb (action_str action) "replace"
                       then optional_pair "--with" replacement else [])
                      ++ apply_flag apply)%list).
    by_cases_on_parameters.
  - intros path target_type name derives apply.
    apply forwards_if_given_intro
      with (before := ["add-derive"; "--path"; path; "--target-type";
                       target_type_str target_type; "--name"; name;
                       "--derives"; derives])
           (after := apply_flag apply).
    by_cases_on_parameters.
  - intros path node_type name content_filter apply.
    apply forwards_if_given_intro
      with (before := (["transform"; "--path"; path; "--node-type";
                        node_type_str node_type; "--action"; "replace"]
                       ++ optional_pair "--name" name
                       ++ optional_pair "--content-filter" content_filter)%list)
           (after := apply_flag apply).
    by_cases_on_parameters.
  - by_cases_on_parameters.
  - intros path pattern body function apply.
    exists ["add-match-arm"; "--path"; path; "--auto-detect"],
           (["--body"; body] ++ optional_pair "--function" function
            ++ apply_flag apply)%list.
    by_cases_on_parameters.
  - by_cases_on_parameters.
Qed.

(* ================================================================== *)
(** * Further properties *)

(** X1.  No tool raises [KeyError] when it reads the result of the bridge:
    [result['error']] is read only from a result whose [success] is false,
    and every such result of [run_rs_hack] holds an error message.  (A
    request whose child process never ends, or whose [limit] has no
    decimal text, yields no result of the bridge and is not spoken of.) *)
Theorem tool_raises_no_key_error (c : ToolCall) (key : string) :
  call c <> Py.Raises (Py.KeyError key).
Proof.
  destruct (success (run_rs_hack (call_args c))) eqn:Hsucc.
  - destruct c; unfold_tool; cbn [call_args] in Hsucc; rewrite Hsucc;
      try (destruct (negb _)); discriminate.
  - destruct (call_failure_response _ Hsucc) as [m [_ ->]]. discriminate.
Qed.

(** X2.  When starting the process raises an exception other than
    [FileNotFoundError], the bridge returns the failure whose message is
    the text of the exception. *)
Theorem run_rs_hack_other_exception (args : list string) (str_e : string) :
  subprocess_run ("rs-hack" :: args) = OtherException str_e ->
  run_rs_hack args = failure str_e.
Proof. intros Hrun. unfold run_rs_hack. rewrite Hrun. reflexivity. Qed.

(** X3.  When the binary exits with code 0 and its trimmed stdout does not
    start with an opening brace or bracket, the bridge returns success with
    the trimmed stdout as text, whatever the decoder would say of it. *)
Theorem run_rs_hack_exit_zero_text (args : list string) (out err : string) :
  subprocess_run ("rs-hack" :: args) = CompletedProcess 0 out err ->
  looks_like_json (Py.strip out) = false ->
  run_rs_hack args = success_with_text (Py.strip out).
Proof.
  intros Hrun Hlooks. rewrite (run_rs_hack_completed _ _ _ _ Hrun), Hlooks.
  reflexivity.
Qed.

(** ** Trimming *)

(** What [lstrip] returns is empty or starts with a character that is no
    whitespace. *)
Lemma lstrip_head (s : string) :
  match Py.lstrip s with
  | EmptyString => True
  | String c _ => Py.isspace c = false
  end.
Proof.
  induction s as [|c t IH]; cbn; [exact I|].
  destruct (Py.isspace c) eqn:Hc; [exact IH | exact Hc].
Qed.

Lemma rstrip_cons (c : ascii) (t : string) :
  Py.rstrip (String c t)
  = match Py.rstrip t with
    | EmptyString => if Py.isspace c then EmptyString else String c EmptyString
    | String d u => String c (String d u)
    end.
Proof. reflexivity. Qed.

Lemma rstrip_idempotent (s : string) : Py.rstrip (Py.rstrip s) = Py.rstrip s.
Proof.
  induction s as [|c t IH]; [reflexivity|]. rewrite rstrip_cons.
  destruct (Py.rstrip t) as [|d u] eqn:Ht.
  - destruct (Py.isspace c) eqn:Hc; [reflexivity|].
    rewrite rstrip_cons. cbn. rewrite Hc. reflexivity.
  - rewrite rstrip_cons, IH. reflexivity.
Qed.

(** [rstrip] keeps a first character that is no whitespace. *)
Lemma rstrip_keeps_head (c : ascii) (t : string) :
  Py.isspace c = false -> exists u, Py.rstrip (String c t) = String c u.
Proof.
  intros Hc. rewrite rstrip_cons. destruct (Py.rstrip t) as [|d u].
  - rewrite Hc. now exists EmptyString.
  - now eexists.
Qed.

(** A trimmed text is trimmed on both sides. *)
Lemma strip_trimmed (s : string) :
  Py.lstrip (Py.strip s) = Py.strip s /\ Py.rstrip (Py.strip s) = Py.strip s.
Proof.
  unfold Py.strip. split; [|apply rstrip_idempotent].
  pose proof (lstrip_head s) as Hhead.
  destruct (Py.lstrip s) as [|c t]; [reflexivity|].
  destruct (rstrip_keeps_head c t Hhead) as [u ->]. cbn. rewrite Hhead.
  reflexivity.
Qed.

(** ** More on the bridge *)

(** X5.  For a process that ran to completion the bridge reports success
    exactly when the trimmed stdout was decoded as JSON, or the exit code is
    0 and the decoder was not tried or rejected the text. *)
Theorem run_rs_hack_success_iff
  (args : list string) (rc : Z) (out err : string) :
  subprocess_run ("rs-hack" :: args) = CompletedProcess rc out err ->
  success (run_rs_hack args) = true
  <-> (looks_like_json (Py.strip out) = true
       /\ exists v, json_loads (Py.strip out) = Decoded v)
      \/ (rc = 0%Z
          /\ (looks_like_json (Py.strip out) = false
              \/ json_loads (Py.strip out) = JSONDecodeError)).
Proof.
  intros Hrun. rewrite (run_rs_hack_completed _ _ _ _ Hrun).
  destruct (looks_like_json (Py.strip out)) eqn:Hlooks;
    [destruct (json_loads (Py.strip out)) as [v | | e] eqn:Hdec|];
    (destruct (Z.eqb_spec rc 0) as [Hrc | Hrc]); cbn; split;
    try (intros H; discriminate H);
    try (intros _; solve [ left; split; [reflexivity | now exists v]
                         | right; split; [exact Hrc | now right]
                         | right; split; [exact Hrc | now left] ]);
    try reflexivity;
    intros [[H1 [v' H2]] | [H1 [H2 | H2]]];
    try discriminate; try reflexivity; try contradiction.
Qed.

(** X6.  When the decoder raises an exception that is no
    [JSONDecodeError], the bridge returns the failure whose message is the
    text of that exception, whatever the exit code, 0 included. *)
Theorem run_rs_hack_decoder_raises
  (args : list string) (rc : Z) (out err str_e : string) :
  subprocess_run ("rs-hack" :: args) = CompletedProcess rc out err ->
  looks_like_json (Py.strip out) = true ->
  json_loads (Py.strip out) = DecodeRaised str_e ->
  run_rs_hack args = failure str_e.
Proof.
  intros Hrun Hlooks Hdec. rewrite (run_rs_hack_completed _ _ _ _ Hrun).
  rewrite Hlooks, Hdec. reflexivity.
Qed.

(** X7.  The output text of a result is trimmed: stripping it on either
    side changes nothing, and it does not start with whitespace. *)
Theorem run_rs_hack_output_trimmed (args : list string) (text : string) :
  output (run_rs_hack args) = Some text ->
  Py.lstrip text = text /\ Py.rstrip text = text /\ Py.strip text = text
  /\ match text with
     | EmptyString => True
     | String c _ => Py.isspace c = false
     end.
Proof.
  intros Hout.
  assert (Hstrip : exists s, text = Py.strip s).
  { destruct (subprocess_run ("rs-hack" :: args)) as [rc out err | | e] eqn:Hrun.
    - rewrite (run_rs_hack_completed _ _ _ _ Hrun) in Hout.
      destruct (if looks_like_json (Py.strip out)
                then json_loads (Py.strip out) else JSONDecodeError);
        [discriminate Hout | | discriminate Hout].
      destruct (rc =? 0)%Z; [|discriminate Hout].
      injection Hout as <-. now exists out.
    - unfold run_rs_hack in Hout. rewrite Hrun in Hout. discriminate Hout.
    - unfold run_rs_hack in Hout. rewrite Hrun in Hout. discriminate Hout. }
  destruct Hstrip as [s ->].
  destruct (strip_trimmed s) as [Hl Hr].
  repeat split; [exact Hl | exact Hr | |].
  - unfold Py.strip at 1. rewrite Hl. exact Hr.
  - rewrite <- Hl. apply lstrip_head.
Qed.

(** X8.  When the binary exits with a non-zero code and both of its streams
    are blank, the message of the failure is empty and every tool answers
    with the bare words [Error: ]. *)
Theorem blank_failure_has_no_message
  (c : ToolCall) (rc : Z) (out err : string) :
  subprocess_run ("rs-hack" :: call_args c) = CompletedProcess rc out err ->
  rc <> 0%Z ->
  Py.strip out = EmptyString ->
  Py.strip err = EmptyString ->
  run_rs_hack (call_args c) = failure EmptyString
  /\ call c = Py.Returns "Error: ".
Proof.
  intros Hrun Hrc Hout Herr.
  assert (Hres : run_rs_hack (call_args c) = failure EmptyString).
  { rewrite (run_rs_hack_completed _ _ _ _ Hrun), Hout, Herr.
    apply Z.eqb_neq in Hrc. cbn. rewrite Hrc. reflexivity. }
  split; [exact Hres|].
  destruct (call_failure_response c) as [m [Hm Hcall]].
  - rewrite Hres. reflexivity.
  - rewrite Hres in Hm. injection Hm as <-. exact Hcall.
Qed.

(** ** More on the tools *)

(** X9.  Outside a dry run every tool hands a non-empty output text of the
    bridge on unchanged. *)
Theorem tool_passes_output_through (c : ToolCall) (text : string) :
  is_dry_run c = false ->
  run_rs_hack (call_args c) = success_with_text text ->
  text <> EmptyString ->
  call c = Py.Returns text.
Proof.
  intros Hdry Hres Htext.
  assert (Hor : forall fallback, Py.or text fallback = text).
  { intros fallback. destruct text; [contradiction|reflexivity]. }
  revert Hdry Hres. unfold is_dry_run.
  destruct c; cbn [apply_argument]; unfold_tool; intros Hdry Hres;
    rewrite Hres; cbn [success success_with_text get_output output];
    rewrite ?Hdry, Hor; reflexivity.
Qed.

(** X10.  An inspection tool prints decoded data with [json.dumps], and
    answers [null] when the binary printed nothing and exited with code
    0. *)
Theorem inspect_renders_data (c : ToolCall) :
  is_inspect c = true ->
  (forall v, run_rs_hack (call_args c) = success_with_data v ->
             call c = Py.Returns (json_dumps v))
  /\ (run_rs_hack (call_args c) = success_with_text EmptyString ->
      call c = Py.Returns "null").
Proof.
  intros Hinspect.
  destruct c; try discriminate Hinspect; unfold_tool;
    (split; [intros v Hres | intros Hres]); rewrite Hres; reflexivity.
Qed.

(** X11.  With [apply] set, every apply-capable tool builds the vector of
    its dry run followed by [--apply]. *)
Theorem apply_flag_is_appended :
  (forall path struct_name field position literal_default,
     add_struct_field_args path struct_name field position literal_default true
     = (add_struct_field_args path struct_name field position literal_default
          false ++ ["--apply"])%list)
  /\ (forall path struct_name field,
        update_struct_field_args path struct_name field true
        = (update_struct_field_args path struct_name field false
           ++ ["--apply"])%list)
  /\ (forall path enum_name variant,
        add_enum_variant_args path enum_name variant true
        = (add_enum_variant_args path enum_name variant false
           ++ ["--apply"])%list)
  /\ (forall path enum_name old_variant new_variant,
        rename_enum_variant_args path enum_name old_variant new_variant true
        = (rename_enum_variant_args path enum_name old_variant new_variant
             false ++ ["--apply"])%list)
  /\ (forall path pattern body function enum_name auto_detect,
        add_match_arm_args path pattern body function enum_name auto_detect
          true
        = (add_match_arm_args path pattern body function enum_name
             auto_detect false ++ ["--apply"])%list)
  /\ (forall path node_type action name content_filter replacement,
        transform_args path node_type action name content_filter replacement
          true
        = (transform_args path node_type action name content_filter
             replacement false ++ ["--apply"])%list)
  /\ (forall path target_type name derives where_filter,
        add_derive_args path target_type name derives where_filter true
        = (add_derive_args path target_type name derives where_filter false
           ++ ["--apply"])%list).
Proof. repeat apply conj; by_cases_on_parameters. Qed.

(** X12.  The two branches of [add_match_arm].  With [auto_detect] the
    vector holds [--auto-detect], the enum name and the body, and the
    pattern does not reach it; without, it holds the pattern and the body,
    and neither [--auto-detect] nor the enum name. *)
Theorem add_match_arm_branches
  (path pattern body : string) (function enum_name : option string)
  (apply : bool) :
  add_match_arm_args path pattern body function enum_name true apply
  = (["add-match-arm"; "--path"; path; "--auto-detect"; "--enum-name";
      Py.or_empty enum_name; "--body"; body]
     ++ optional_pair "--function" function ++ apply_flag apply)%list
  /\ add_match_arm_args path pattern body function enum_name false apply
     = (["add-match-arm"; "--path"; path; "--pattern"; pattern;
         "--body"; body]
        ++ optional_pair "--function" function ++ apply_flag apply)%list.
Proof. by_cases_on_parameters. Qed.

(** ** The tests *)

(** In a result, the key [error] is present exactly when [success] is
    false. *)
Lemma error_key_iff_failure (args : list string) :
  has_key "error" (run_rs_hack args) = negb (success (run_rs_hack args))
  /\ (has_key "output" (run_rs_hack args) || has_key "data" (run_rs_hack args))
     = success (run_rs_hack args).
Proof.
  destruct (run_rs_hack_cases args) as [[v ->] | [[t ->] | [m ->]]];
    split; reflexivity.
Qed.

(** X13.  Three tests of [test_server.py] pass whatever the binary does and
    whether or not it is installed: [test_rs_hack_version],
    [test_history_command] and [test_inspect_with_invalid_path]. *)
Theorem tests_that_cannot_fail :
  test_rs_hack_version = true
  /\ test_history_command = true
  /\ test_inspect_with_invalid_path = true.
Proof.
  split; [reflexivity|]. split.
  - unfold test_history_command. cbv zeta. now destruct (Py.contains _ _).
  - unfold test_inspect_with_invalid_path. cbv zeta.
    destruct (Py.contains _ _); [reflexivity|].
    destruct (error_key_iff_failure
                ["inspect"; "--path"; "/nonexistent/path.rs";
                 "--node-type"; "struct-literal"]) as [-> _].
    now destruct (success _).
Qed.

(** X14.  When the binary is not installed, every test of
    [test_server.py] that calls the bridge passes. *)
Theorem tests_pass_without_binary :
  (forall cmd, subprocess_run cmd = FileNotFoundError) ->
  test_rs_hack_version = true
  /\ test_help_command = true
  /\ test_error_handling = true
  /\ test_inspect_returns_structure = true
  /\ test_history_command = true
  /\ test_inspect_with_invalid_path = true.
Proof.
  intros Hmissing.
  assert (Hres : forall args, run_rs_hack args = failure install_hint).
  { intros args. unfold run_rs_hack. rewrite Hmissing. reflexivity. }
  unfold test_rs_hack_version, test_help_command, test_error_handling,
    test_inspect_returns_structure, test_history_command,
    test_inspect_with_invalid_path.
  cbv zeta. rewrite !Hres. repeat split.
Qed.

(** X15.  What decides the two remaining tests.  [test_error_handling]
    passes exactly when the bridge reports a failure for the invalid
    command: its second assertion cannot fail then.
    [test_inspect_returns_structure] passes exactly when the bridge reports
    success or a message that holds [rs-hack not found]. *)
Theorem test_verdicts :
  test_error_handling = negb (success (run_rs_hack ["invalid-command"]))
  /\ test_inspect_returns_structure
     = (success (run_rs_hack ["inspect"; "--help"])
        || Py.contains (get_error (run_rs_hack ["inspect"; "--help"]))
             "rs-hack not found").
Proof.
  split.
  - unfold test_error_handling. cbv zeta.
    destruct (error_key_iff_failure ["invalid-command"]) as [-> _].
    now destruct (success _).
  - unfold test_inspect_returns_structure. cbv zeta.
    destruct (error_key_iff_failure ["inspect"; "--help"]) as [_ ->].
    now destruct (success _).
Qed.

(** X16.  [test_error_handling] fails when the binary answers the invalid
    command with JSON on stdout, even if it exits with a non-zero code. *)
Theorem test_error_handling_fails_on_json
  (rc : Z) (out err : string) (v : JSON) :
  subprocess_run ["rs-hack"; "invalid-command"] = CompletedProcess rc out err ->
  looks_like_json (Py.strip out) = true ->
  json_loads (Py.strip out) = Decoded v ->
  test_error_handling = false.
Proof.
  intros Hrun Hlooks Hdec. unfold test_error_handling. cbv zeta.
  rewrite (run_rs_hack_completed _ _ _ _ Hrun), Hlooks, Hdec. reflexivity.
Qed.

(** X18.  When the binary is not installed, every tool answers every
    request with the installation hint behind the words [Error: ]. *)
Theorem tool_reports_missing_binary (c : ToolCall) :
  subprocess_run ("rs-hack" :: call_args c) = FileNotFoundError ->
  call c
  = Py.Returns "Error: rs-hack not found. Install with: cargo install rs-hack".
Proof.
  intros Hrun.
  assert (Hres : run_rs_hack (call_args c) = failure install_hint).
  { unfold run_rs_hack. rewrite Hrun. reflexivity. }
  destruct (call_failure_response c) as [m [Hm Hcall]].
  - rewrite Hres. reflexivity.
  - rewrite Hres in Hm. injection Hm as <-. exact Hcall.
Qed.

End Server.

(* ================================================================== *)
(** * Concrete runs

    The theorems above at concrete worlds, with the codec [Json]. *)

(** C1 as first stated fails: the binary exits with code 1, prints an empty
    JSON array on stdout and a message on stderr; the bridge returns success
    with the decoded array, not the failure with the message of stderr.  It
    fails also when the stdout is an array that holds an integer too long
    for [int]: the message of the failure is then the text of the
    [ValueError], not the message of stderr. *)
Lemma nonzero_exit_with_json_stdout :
  let os := world 1 "[]" "error: no history" in
  let os' := world 1 Json.long_integer "error: no history" in
  os ["rs-hack"; "history"] = CompletedProcess 1 "[]" "error: no history"
  /\ run_rs_hack Json.loads os ["history"] = success_with_data (Json.Arr [])
  /\ run_rs_hack Json.loads os ["history"] <> failure "error: no history"
  /\ run_rs_hack (Json.loads_under Json.default_limits) os' ["history"]
     = failure (Json.digits_error Json.default_limits 4301)
  /\ run_rs_hack (Json.loads_under Json.default_limits) os' ["history"]
     <> failure "error: no history".
Proof.
  cbv zeta. split; [reflexivity|]. split; [reflexivity|].
  split; [intros H; discriminate H|].
  assert (Hrun : run_rs_hack (Json.loads_under Json.default_limits)
                   (world 1 Json.long_integer "error: no history") ["history"]
                 = failure (Json.digits_error Json.default_limits 4301)).
  { vm_compute. reflexivity. }
  split; [exact Hrun|]. rewrite Hrun. vm_compute. intros H. discriminate H.
Qed.

(** The amended C1 on three runs with exit code 2: a message on stderr; an
    empty stderr and a stdout that starts with a brace and is no JSON; a
    stdout on which the decoder raises [ValueError]. *)
Lemma run_rs_hack_nonzero_exit_witness :
  run_rs_hack Json.loads (world 2 "usage: rs-hack" " error: unknown command ")
    ["invalid-command"]
  = failure "error: unknown command"
  /\ run_rs_hack Json.loads (world 2 "  {oops " EmptyString) ["inspect"]
     = failure "{oops"
  /\ run_rs_hack (Json.loads_under Json.default_limits)
       (world 2 Json.long_integer "boom") ["inspect"]
     = failure (Json.digits_error Json.default_limits 4301).
Proof.
  split; [|split].
  - apply (proj1 (run_rs_hack_nonzero_exit Json.loads
                    (world 2 "usage: rs-hack" " error: unknown command ")
                    ["invalid-command"] 2 "usage: rs-hack"
                    " error: unknown command " eq_refl ltac:(discriminate))).
    left. reflexivity.
  - apply (proj1 (run_rs_hack_nonzero_exit Json.loads
                    (world 2 "  {oops " EmptyString) ["inspect"] 2 "  {oops "
                    EmptyString eq_refl ltac:(discriminate))).
    right. reflexivity.
  - apply (proj2 (run_rs_hack_nonzero_exit
                    (Json.loads_under Json.default_limits)
                    (world 2 Json.long_integer "boom") ["inspect"] 2
                    Json.long_integer "boom" eq_refl ltac:(discriminate))).
    + vm_compute. reflexivity.
    + vm_compute. reflexivity.
Defined.

(** C2 as first stated fails: the stdout starts with a bracket and is valid
    JSON, an array that holds one integer of 4301 digits; [json.loads]
    raises [ValueError] on it, and the bridge returns the failure with the
    text of that exception, not success with data. *)
Lemma valid_json_over_limit_is_failure :
  let os := world 1 Json.long_integer EmptyString in
  Json.decode Json.long_integer
  = Some (Json.Arr [Json.Int (Json.digits_value (Json.chars (Json.sevens 4301)))])
  /\ run_rs_hack (Json.loads_under Json.default_limits) os ["history"]
     = failure (Json.digits_error Json.default_limits 4301)
  /\ success (run_rs_hack (Json.loads_under Json.default_limits) os
                ["history"]) = false.
Proof.
  cbv zeta. split; [reflexivity|]. split; vm_compute; reflexivity.
Qed.

(** C2 on a run that exits with code 3 and prints an empty object. *)
Lemma run_rs_hack_json_any_exit_code_witness :
  run_rs_hack Json.loads (world 3 " {} " "fatal") ["inspect"]
  = success_with_data (Json.Obj []).
Proof.
  apply (run_rs_hack_json_any_exit_code Json.loads (world 3 " {} " "fatal")
           ["inspect"] 3 " {} " "fatal").
  - reflexivity.
  - reflexivity.
  - reflexivity.
Defined.

(** C3 as first stated fails at exit code 0: on the valid array with an
    integer of 4301 digits the bridge returns a failure, not success with
    data; and on the same text without its closing bracket, which is no
    JSON, it returns a failure too, not success with the text. *)
Lemma exit_zero_over_limit_is_failure :
  let loads := Json.loads_under Json.default_limits in
  Json.decode Json.long_integer
  = Some (Json.Arr [Json.Int (Json.digits_value (Json.chars (Json.sevens 4301)))])
  /\ run_rs_hack loads (world 0 Json.long_integer EmptyString) ["history"]
     = failure (Json.digits_error Json.default_limits 4301)
  /\ Json.decode Json.long_integer_open = None
  /\ run_rs_hack loads (world 0 Json.long_integer_open EmptyString)
       ["history"]
     = failure (Json.digits_error Json.default_limits 4301).
Proof.
  cbv zeta. split; [reflexivity|]. split; [vm_compute; reflexivity|].
  split; [reflexivity|]. vm_compute; reflexivity.
Qed.

(** The amended C3 on three runs that exit with code 0: one prints a JSON
    array, one a text that starts with a brace and is no JSON, one an array
    on which the decoder raises [ValueError]. *)
Lemma run_rs_hack_exit_zero_witness :
  run_rs_hack Json.loads (world 0 "[1, 2]" EmptyString) ["inspect"]
  = success_with_data (Json.Arr [Json.Int 1; Json.Int 2])
  /\ run_rs_hack Json.loads (world 0 "{not json" EmptyString) ["inspect"]
     = success_with_text "{not json"
  /\ run_rs_hack (Json.loads_under Json.default_limits)
       (world 0 Json.long_integer EmptyString) ["inspect"]
     = failure (Json.digits_error Json.default_limits 4301).
Proof.
  split; [|split].
  - apply (proj1 (run_rs_hack_exit_zero Json.loads
                    (world 0 "[1, 2]" EmptyString) ["inspect"] "[1, 2]"
                    EmptyString eq_refl eq_refl)).
    reflexivity.
  - apply (proj1 (proj2 (run_rs_hack_exit_zero Json.loads
                           (world 0 "{not json" EmptyString) ["inspect"]
                           "{not json" EmptyString eq_refl eq_refl))).
    reflexivity.
  - apply (proj2 (proj2 (run_rs_hack_exit_zero
                           (Json.loads_under Json.default_limits)
                           (world 0 Json.long_integer EmptyString) ["inspect"]
                           Json.long_integer EmptyString eq_refl
                           ltac:(vm_compute; reflexivity)))).
    vm_compute. reflexivity.
Defined.

(** C4 in the world without the binary. *)
Lemma run_rs_hack_not_found_witness :
  run_rs_hack Json.loads world_missing ["--version"] = failure install_hint.
Proof.
  apply (proj1 (run_rs_hack_not_found Json.loads world_missing ["--version"]
                  eq_refl)).
Defined.

(** C5 as first stated fails: with [apply=True], when the binary's own
    output holds the words of the banner, so does the response. *)
Lemma apply_response_can_hold_banner :
  let os := world 0 "Archived // was: DRY RUN only" EmptyString in
  call Json.loads Json.dumps os
    (AddEnumVariant "src/types.rs" "Status" "Archived" (Some true))
  = Py.Returns "Archived // was: DRY RUN only"
  /\ Py.contains "Archived // was: DRY RUN only" dry_run_banner = true.
Proof. cbv zeta. split; reflexivity. Qed.

(** The amended C5 on three requests: [apply] left out, [apply=False] and
    [apply=True], the binary printing one line and exiting with code 0. *)
Lemma apply_tools_dry_run_banner_witness :
  let os := world 0 "+    Archived," EmptyString in
  (exists s,
     call Json.loads Json.dumps os
       (AddEnumVariant "src/types.rs" "Status" "Archived" None)
     = Py.Returns s
     /\ Py.startswith s dry_run_banner = true)
  /\ (exists s,
        call Json.loads Json.dumps os
          (AddStructField "src/user.rs" "User" "age: u32" None None
             (Some false))
        = Py.Returns s
        /\ Py.startswith s dry_run_banner = true)
  /\ (exists s,
        call Json.loads Json.dumps os
          (RenameEnumVariant "src/**/*.rs" "Status" "Draft" "Pending"
             (Some true))
        = Py.Returns s
        /\ Py.contains s dry_run_banner = false).
Proof.
  cbv zeta. repeat apply conj.
  - destruct (apply_tools_dry_run_banner Json.loads Json.dumps
                (world 0 "+    Archived," EmptyString)
                (AddEnumVariant "src/types.rs" "Status" "Archived" None)
                None eq_refl) as [s [Hs [Hdry _]]].
    exists s. split; [exact Hs|]. apply Hdry; reflexivity.
  - destruct (apply_tools_dry_run_banner Json.loads Json.dumps
                (world 0 "+    Archived," EmptyString)
                (AddStructField "src/user.rs" "User" "age: u32" None None
                   (Some false))
                (Some false) eq_refl) as [s [Hs [Hdry _]]].
    exists s. split; [exact Hs|]. apply Hdry; reflexivity.
  - destruct (apply_tools_dry_run_banner Json.loads Json.dumps
                (world 0 "+    Archived," EmptyString)
                (RenameEnumVariant "src/**/*.rs" "Status" "Draft" "Pending"
                   (Some true))
                (Some true) eq_refl) as [s [Hs [_ Hwet]]].
    exists s. split; [exact Hs|]. apply Hwet; reflexivity.
Defined.

(** C6 in a world where the binary prints nothing and exits with code 0. *)
Lemma add_enum_variant_scenario_witness :
  let os := world 0 EmptyString EmptyString in
  add_enum_variant Json.loads os "src/types.rs" "Status" "Archived" false
  = Py.Returns ("DRY RUN - Preview:" ++ Py.nl ++ Py.nl ++ Py.nl
                ++ "Use apply=True to make changes.")
  /\ add_enum_variant Json.loads os "src/types.rs" "Status" "Archived" true
     = Py.Returns "Successfully added enum variant".
Proof.
  cbv zeta.
  destruct (add_enum_variant_scenario Json.loads
              (world 0 EmptyString EmptyString))
    as [_ [_ [Hdry [_ [_ Hwet]]]]].
  split.
  - apply Hdry; reflexivity.
  - apply Hwet; reflexivity.
Defined.

(** C8 on two requests: the binary is missing, and the binary exits with
    code 1 and a message on stderr. *)
Lemma tool_reports_bridge_failure_witness :
  call Json.loads Json.dumps world_missing (ShowHistory None)
  = Py.Returns "Error: rs-hack not found. Install with: cargo install rs-hack"
  /\ call Json.loads Json.dumps
       (world 1 EmptyString "error: unknown run id") 
       (RevertOperation "a05a626" None)
     = Py.Returns "Error: error: unknown run id".
Proof.
  split.
  - apply (tool_reports_bridge_failure Json.loads Json.dumps world_missing
             (ShowHistory None) install_hint); reflexivity.
  - apply (tool_reports_bridge_failure Json.loads Json.dumps
             (world 1 EmptyString "error: unknown run id")
             (RevertOperation "a05a626" None) "error: unknown run id");
      reflexivity.
Defined.

(** C10 as first stated fails for [enum_name] of [add_match_arm]: with
    [auto_detect] and [enum_name] left out the vector still holds
    [--enum-name], followed by the empty string; and with a name given but
    no [auto_detect] the vector does not hold the flag.  So [enum_name] is
    not forwarded as an optional pair, with or without [auto_detect]. *)
Lemma enum_name_is_no_optional_pair :
  add_match_arm_args "src/handler.rs" EmptyString "todo!()"
    (Some "handle_status") None true true
  = ["add-match-arm"; "--path"; "src/handler.rs"; "--auto-detect";
     "--enum-name"; EmptyString; "--body"; "todo!()";
     "--function"; "handle_status"; "--apply"]
  /\ add_match_arm_args "src/handler.rs" "Status::Archived" "todo!()"
       None (Some "Status") false false
     = ["add-match-arm"; "--path"; "src/handler.rs";
        "--pattern"; "Status::Archived"; "--body"; "todo!()"]
  /\ ~ forwards_if_given "--enum-name"
         (fun p => add_match_arm_args "src/handler.rs" EmptyString "todo!()"
                     (Some "handle_status") p true true)
  /\ ~ forwards_if_given "--enum-name"
         (fun p => add_match_arm_args "src/handler.rs" "Status::Archived"
                     "todo!()" None p false false)
  /\ transform_args "src/**/*.rs" MacroCall Comment (Some "eprintln") None
       (Some "log::debug") false
     = ["transform"; "--path"; "src/**/*.rs"; "--node-type"; "macro-call";
        "--action"; "comment"; "--name"; "eprintln"]
  /\ ~ forwards_if_given "--with"
         (fun p => transform_args "src/**/*.rs" MacroCall Comment
                     (Some "eprintln") None p false).
Proof.
  split; [reflexivity|]. split; [reflexivity|].
  assert (Hlen : forall flag build,
            List.length (build None) = List.length (build (Some "Status")) ->
            ~ forwards_if_given flag build).
  { intros flag build Hsame [before [after H]].
    rewrite (H None), (H (Some "Status")), !length_app in Hsame.
    cbn in Hsame. lia. }
  split; [apply Hlen; reflexivity|].
  split; [apply Hlen; reflexivity|].
  split; [reflexivity|].
  apply Hlen; reflexivity.
Qed.

(** X4.  The response of a tool depends on the world only through the
    outcome of one command: [rs-hack] followed by the argument vector of the
    request. *)
Theorem call_runs_one_command {JSON : Type}
  (json_loads : string -> Decode JSON) (json_dumps : JSON -> string)
  (os1 os2 : list string -> RunOutcome) (c : ToolCall) :
  os1 ("rs-hack" :: call_args c) = os2 ("rs-hack" :: call_args c) ->
  call json_loads json_dumps os1 c = call json_loads json_dumps os2 c.
Proof.
  intros Hsame.
  assert (Hbridge : run_rs_hack json_loads os1 (call_args c)
                    = run_rs_hack json_loads os2 (call_args c)).
  { unfold run_rs_hack. rewrite Hsame. reflexivity. }
  revert Hbridge.
  destruct c; cbn [call call_args];
    unfold inspect_struct_literals, inspect_match_arms, inspect_enum_usage,
      inspect_macro_calls, add_struct_field, update_struct_field,
      add_enum_variant, rename_enum_variant, add_match_arm, transform,
      add_derive, show_history, revert_operation;
    cbv zeta; intros ->; reflexivity.
Qed.

(** X4 on a world that knows the one command of a revert request and on the
    world that answers every command alike. *)
Lemma call_runs_one_command_witness :
  call Json.loads Json.dumps
    (world_only ["rs-hack"; "revert"; "a05a626"]
       (CompletedProcess 0 "reverted 3 files" EmptyString))
    (RevertOperation "a05a626" None)
  = call Json.loads Json.dumps (world 0 "reverted 3 files" EmptyString)
      (RevertOperation "a05a626" None).
Proof.
  apply (call_runs_one_command Json.loads Json.dumps
           (world_only ["rs-hack"; "revert"; "a05a626"]
              (CompletedProcess 0 "reverted 3 files" EmptyString))
           (world 0 "reverted 3 files" EmptyString)
           (RevertOperation "a05a626" None)).
  reflexivity.
Defined.

(** X2 in a world where the binary may not be executed. *)
Lemma run_rs_hack_other_exception_witness :
  run_rs_hack Json.loads (world_raising "[Errno 13] Permission denied")
    ["--version"]
  = failure "[Errno 13] Permission denied".
Proof.
  apply (run_rs_hack_other_exception Json.loads
           (world_raising "[Errno 13] Permission denied") ["--version"]
           "[Errno 13] Permission denied").
  reflexivity.
Defined.

(** X3 on a run that prints a version line and exits with code 0. *)
Lemma run_rs_hack_exit_zero_text_witness :
  run_rs_hack Json.loads (world 0 ("rs-hack 0.4.1" ++ Py.nl) EmptyString)
    ["--version"]
  = success_with_text "rs-hack 0.4.1".
Proof.
  apply (run_rs_hack_exit_zero_text Json.loads
           (world 0 ("rs-hack 0.4.1" ++ Py.nl) EmptyString) ["--version"]
           ("rs-hack 0.4.1" ++ Py.nl) EmptyString).
  - reflexivity.
  - reflexivity.
Defined.

(** X17.  A tool other than the inspection tools does not print decoded
    data: it answers a JSON reply of the binary as it answers an empty
    output at exit code 0. *)
Theorem json_answer_read_as_empty {JSON : Type}
  (json_loads : string -> Decode JSON) (json_dumps : JSON -> string)
  (os1 os2 : list string -> RunOutcome) (c : ToolCall) (v : JSON) :
  is_inspect c = false ->
  run_rs_hack json_loads os1 (call_args c) = success_with_data v ->
  run_rs_hack json_loads os2 (call_args c) = success_with_text EmptyString ->
  call json_loads json_dumps os1 c = call json_loads json_dumps os2 c.
Proof.
  intros Hinspect.
  destruct c; try discriminate Hinspect; cbn [call call_args];
    unfold add_struct_field, update_struct_field, add_enum_variant,
      rename_enum_variant, add_match_arm, transform, add_derive,
      show_history, revert_operation;
    cbv zeta; intros -> ->; reflexivity.
Qed.

(** X5 on a run that prints a plain line and exits with code 0. *)
Lemma run_rs_hack_success_iff_witness :
  success (run_rs_hack Json.loads (world 0 "rs-hack 0.4.1" EmptyString)
             ["--version"]) = true.
Proof.
  apply (proj2 (run_rs_hack_success_iff Json.loads
                  (world 0 "rs-hack 0.4.1" EmptyString) ["--version"] 0
                  "rs-hack 0.4.1" EmptyString eq_refl)).
  right. split; [reflexivity|]. left. reflexivity.
Defined.

(** X6 with a decoder that gives up on every text, at exit code 0. *)
Lemma run_rs_hack_decoder_raises_witness :
  run_rs_hack
    (fun _ : string =>
       @DecodeRaised Json.value "maximum recursion depth exceeded")
    (world 0 "[[[[[[[[1]]]]]]]]" EmptyString) ["inspect"]
  = failure "maximum recursion depth exceeded".
Proof.
  apply (run_rs_hack_decoder_raises
           (fun _ : string =>
              @DecodeRaised Json.value "maximum recursion depth exceeded")
           (world 0 "[[[[[[[[1]]]]]]]]" EmptyString) ["inspect"] 0
           "[[[[[[[[1]]]]]]]]" EmptyString
           "maximum recursion depth exceeded").
  - reflexivity.
  - reflexivity.
  - reflexivity.
Defined.

(** X7 on a run whose output has blanks on both sides. *)
Lemma run_rs_hack_output_trimmed_witness :
  output (run_rs_hack Json.loads (world 0 ("  done " ++ Py.nl) EmptyString)
            ["revert"; "a05a626"]) = Some "done"
  /\ Py.strip "done" = "done".
Proof.
  split; [reflexivity|].
  apply (run_rs_hack_output_trimmed Json.loads
           (world 0 ("  done " ++ Py.nl) EmptyString) ["revert"; "a05a626"]
           "done" eq_refl).
Defined.

(** X8 on a run that exits with code 1 and prints blanks only. *)
Lemma blank_failure_has_no_message_witness :
  call Json.loads Json.dumps (world 1 " " Py.nl) (ShowHistory (Some 5%Z))
  = Py.Returns "Error: ".
Proof.
  apply (proj2 (blank_failure_has_no_message Json.loads Json.dumps
                  (world 1 " " Py.nl) (ShowHistory (Some 5%Z)) 1 " " Py.nl
                  eq_refl ltac:(discriminate) eq_refl eq_refl)).
Defined.

(** X9 on a revert and on an applied change. *)
Lemma tool_passes_output_through_witness :
  call Json.loads Json.dumps (world 0 "reverted 3 files" EmptyString)
    (RevertOperation "a05a626" None)
  = Py.Returns "reverted 3 files"
  /\ call Json.loads Json.dumps (world 0 "1 file changed" EmptyString)
       (AddEnumVariant "src/types.rs" "Status" "Archived" (Some true))
     = Py.Returns "1 file changed".
Proof.
  split.
  - apply (tool_passes_output_through Json.loads Json.dumps
             (world 0 "reverted 3 files" EmptyString)
             (RevertOperation "a05a626" None) "reverted 3 files").
    + reflexivity.
    + reflexivity.
    + discriminate.
  - apply (tool_passes_output_through Json.loads Json.dumps
             (world 0 "1 file changed" EmptyString)
             (AddEnumVariant "src/types.rs" "Status" "Archived" (Some true))
             "1 file changed").
    + reflexivity.
    + reflexivity.
    + discriminate.
Defined.

(** X10 on a run that prints a JSON array and on a run that prints
    nothing. *)
Lemma inspect_renders_data_witness :
  call Json.loads Json.dumps (world 0 "[1]" EmptyString)
    (InspectEnumUsage "src/**/*.rs" "Status::Active" (Some FormatJson))
  = Py.Returns (Json.dumps (Json.Arr [Json.Int 1]))
  /\ call Json.loads Json.dumps (world 0 EmptyString EmptyString)
       (InspectStructLiterals "src/main.rs" None None)
     = Py.Returns "null".
Proof.
  split.
  - apply (proj1 (inspect_renders_data Json.loads Json.dumps
                    (world 0 "[1]" EmptyString)
                    (InspectEnumUsage "src/**/*.rs" "Status::Active"
                       (Some FormatJson)) eq_refl)).
    reflexivity.
  - apply (proj2 (inspect_renders_data Json.loads Json.dumps
                    (world 0 EmptyString EmptyString)
                    (InspectStructLiterals "src/main.rs" None None) eq_refl)).
    reflexivity.
Defined.

(** X14 in the world without the binary. *)
Lemma tests_pass_without_binary_witness :
  test_help_command Json.loads world_missing = true
  /\ test_error_handling Json.loads world_missing = true
  /\ test_inspect_returns_structure Json.loads world_missing = true.
Proof.
  destruct (tests_pass_without_binary Json.loads world_missing
              (fun cmd => eq_refl))
    as [_ [Hhelp [Herr [Hinspect _]]]].
  repeat split; assumption.
Defined.

(** X16 on a binary that answers the invalid command with a JSON object
    and exit code 2. *)
Lemma test_error_handling_fails_on_json_witness :
  test_error_handling Json.loads (world 2 "{}" "error: unknown command")
  = false.
Proof.
  apply (test_error_handling_fails_on_json Json.loads
           (world 2 "{}" "error: unknown command") 2 "{}"
           "error: unknown command" (Json.Obj [])).
  - reflexivity.
  - reflexivity.
  - reflexivity.
Defined.

(** X17 on the history tool: a JSON history is answered like an empty
    one. *)
Lemma json_answer_read_as_empty_witness :
  call Json.loads Json.dumps (world 0 "[1, 2]" EmptyString) (ShowHistory None)
  = call Json.loads Json.dumps (world 0 EmptyString EmptyString)
      (ShowHistory None)
  /\ call Json.loads Json.dumps (world 0 "[1, 2]" EmptyString)
       (ShowHistory None)
     = Py.Returns "No history available".
Proof.
  split; [|reflexivity].
  apply (json_answer_read_as_empty Json.loads Json.dumps
           (world 0 "[1, 2]" EmptyString) (world 0 EmptyString EmptyString)
           (ShowHistory None) (Json.Arr [Json.Int 1; Json.Int 2])).
  - reflexivity.
  - reflexivity.
  - reflexivity.
Defined.

(** X18 on a transform request in the world without the binary. *)
Lemma tool_reports_missing_binary_witness :
  call Json.loads Json.dumps world_missing
    (Transform "src/**/*.rs" MacroCall Comment (Some "eprintln")
       (Some "[DEBUG]") None (Some true))
  = Py.Returns "Error: rs-hack not found. Install with: cargo install rs-hack".
Proof.
  apply (tool_reports_missing_binary Json.loads Json.dumps world_missing
           (Transform "src/**/*.rs" MacroCall Comment (Some "eprintln")
              (Some "[DEBUG]") None (Some true))).
  reflexivity.
Defined.
